(** * evolve-das-upload: the upload scripts and their specification

    The repository holds three variants of one Evolve script that uploads a
    document to Digital Advantage (DAS):

    - [Index]           src/index.ts: the input file is one flat JSON record,
                        parsed inside [uploadDocument];
    - [FirstClient]     the variant that uploads for [input.Clients[0]];
    - [WithDocumentId]  the variant that uploads for
                        [input.Clients[0].Reservation] and returns the
                        document id found in the response.

    The scripts run on a host that provides files, [fetch], [JSON] and the
    JavaScript object model.  Part I models that host, Part II embeds the
    three scripts statement by statement, Part III states and proves the
    properties of the specification. *)

From Stdlib Require Import ZArith List String Ascii Bool Lia DecimalString.
Import ListNotations.
Local Open Scope string_scope.
Local Open Scope Z_scope.

(** * Part I: the host *)

(** ** Characters and strings

    A JavaScript string is modelled by the bytes of its UTF-8 encoding.  The
    scripts never look inside a string, they only compare property names and
    pass strings on. *)

Definition dquote : ascii := "034"%char.
Definition backslash : ascii := "092"%char.

Definition code (c : ascii) : Z := Z.of_N (N_of_ascii c).
Definition chr (n : Z) : ascii := ascii_of_N (Z.to_N n).

Definition is_digit (c : ascii) : bool := (48 <=? code c) && (code c <=? 57).

Definition str1 (c : ascii) : string := String c EmptyString.

Fixpoint join (sep : string) (l : list string) : string :=
  match l with
  | [] => EmptyString
  | [s] => s
  | s :: r => s ++ sep ++ join sep r
  end.

Fixpoint zeros (n : nat) : string :=
  match n with
  | O => EmptyString
  | S n' => String "0" (zeros n')
  end.

(** Decimal digits of a natural number, most significant first. *)
Definition digits (n : Z) : string :=
  NilZero.string_of_uint (N.to_uint (Z.to_N n)).

Definition number_of_digits (ds : list ascii) : Z :=
  fold_left (fun acc c => acc * 10 + (code c - 48)) ds 0.

Fixpoint all_digits (s : list ascii) : bool :=
  match s with
  | [] => true
  | c :: r => is_digit c && all_digits r
  end.

(** [array_index k] is [Some i] when the property name [k] is the canonical
    decimal form of the array index [i]. *)
Definition array_index (k : string) : option nat :=
  let cs := list_ascii_of_string k in
  match cs with
  | [] => None
  | _ =>
    if all_digits cs then
      let n := number_of_digits cs in
      if (String.eqb (digits n) k) && (n <? 4294967295)
      then Some (Z.to_nat n) else None
    else None
  end.

(** ** Numbers

    A number is carried as the decimal it was written as: [mant * 10 ^ expo],
    with no trailing zero in [mant] and zero as [(0, 0)].  This is exact for
    the identifiers, counts and indexes the scripts handle (at most 15
    significant digits, inside the range of a double); [-0] and [0] are the
    same number for every operation used here. *)

Module Num.

Record number : Type := mk { mant : Z; expo : Z }.

Fixpoint strip_zeros (rds : list ascii) (e : Z) : list ascii * Z :=
  match rds with
  | c :: r => if Ascii.eqb c "0" then strip_zeros r (e + 1) else (rds, e)
  | [] => ([], e)
  end.

(** The number written with sign [neg], digits [ds] and exponent [e]. *)
Definition of_decimal (neg : bool) (ds : list ascii) (e : Z) : number :=
  let '(rds, e') := strip_zeros (rev ds) e in
  let m := number_of_digits (rev rds) in
  if m =? 0 then mk 0 0 else mk (if neg then - m else m) e'.

Definition of_Z (z : Z) : number :=
  of_decimal (z <? 0) (list_ascii_of_string (digits (Z.abs z))) 0.

Definition eqb (x y : number) : bool :=
  (mant x =? mant y) && (expo x =? expo y).

(** Number::toString (radix 10) of ECMA-262: [k] digits, decimal point after
    the [n]-th. *)
Definition to_string (x : number) : string :=
  if mant x =? 0 then "0" else
  let ds := digits (Z.abs (mant x)) in
  let k := Z.of_nat (String.length ds) in
  let n := k + expo x in
  let body :=
    if (k <=? n) && (n <=? 21) then ds ++ zeros (Z.to_nat (n - k))
    else if (0 <? n) && (n <=? 21) then
      substring 0 (Z.to_nat n) ds ++ "." ++ substring (Z.to_nat n) (Z.to_nat (k - n)) ds
    else if (-6 <? n) && (n <=? 0) then "0." ++ zeros (Z.to_nat (- n)) ++ ds
    else
      let e := n - 1 in
      let es := (if e <? 0 then "-" else "+") ++ digits (Z.abs e) in
      if k =? 1 then ds ++ "e" ++ es
      else substring 0 1 ds ++ "." ++ substring 1 (Z.to_nat (k - 1)) ds ++ "e" ++ es in
  (if mant x <? 0 then "-" else EmptyString) ++ body.

End Num.

(** ** Values *)

#[local] Set Warnings "-register-all".

Inductive value : Type :=
| VUndefined
| VNull
| VBool (b : bool)
| VNum (n : Num.number)
| VStr (s : string)
| VArr (elements : list value)
| VObj (properties : list (string * value))
| VPromise.
(* [VPromise]: a promise that was not awaited; it has no own property. *)

Definition VInt (z : Z) : value := VNum (Num.of_Z z).

(** Exceptions.  [SyntaxError] is what [JSON.parse] and [response.json()]
    throw (the specification's ParseError), [TypeError] is a member access on
    [undefined] or [null] or a call of something that is no function,
    [ReadError] is the host's failure to read a file (ResourceReadError),
    [NetworkError] the rejection of [fetch], and [Error] is
    [new Error(message)]: the scripts throw it with the message
    "Non-OK DAS API response: ..." (RemoteUploadError) and with the message
    "No document ID found in upload response" (MissingIdentifierError). *)
Inductive error : Type :=
| SyntaxError
| TypeError
| NetworkError
| ReadError (path : string)
| Error (message : string).

Inductive result (A : Type) : Type :=
| Ok (a : A)
| Throw (e : error).
Arguments Ok {A} a.
Arguments Throw {A} e.

Definition is_nullish (v : value) : bool :=
  match v with
  | VUndefined | VNull => true
  | _ => false
  end.

Fixpoint lookup (k : string) (fs : list (string * value)) : option value :=
  match fs with
  | [] => None
  | (k', v) :: r => if String.eqb k k' then Some v else lookup k r
  end.

(** A property key: a name, or an index as in [x[0]]. *)
Inductive key : Type :=
| Key (name : string)
| Idx (i : nat).
Coercion Key : string >-> key.

(** [get v k] is [v[k]] for a [v] that is neither [undefined] nor [null]
    (on those the access throws, see [member]).  Only own properties, array
    elements and string characters are found: none of the names the scripts
    read is defined on a prototype, and [forEach] is modelled on its own. *)
Definition get (v : value) (k : key) : value :=
  match v, k with
  | VObj fs, Key name => match lookup name fs with Some x => x | None => VUndefined end
  | VObj fs, Idx i =>
    match lookup (digits (Z.of_nat i)) fs with Some x => x | None => VUndefined end
  | VArr l, Key name =>
    match array_index name with Some i => nth i l VUndefined | None => VUndefined end
  | VArr l, Idx i => nth i l VUndefined
  | VStr s, Key name =>
    match array_index name with
    | Some i => match String.get i s with Some c => VStr (str1 c) | None => VUndefined end
    | None => VUndefined
    end
  | VStr s, Idx i => match String.get i s with Some c => VStr (str1 c) | None => VUndefined end
  | _, _ => VUndefined
  end.

(** [x === y] for a number [y]. *)
Definition strict_eq_num (x : value) (y : Num.number) : bool :=
  match x with
  | VNum n => Num.eqb n y
  | _ => false
  end.

(** ToString, as [JSON.parse] applies it to its argument.  An object made by
    [JSON.parse] prints as [[object Object]] unless it has an own property
    [toString], which is then no function and makes the conversion throw. *)
Fixpoint ToString (v : value) : result string :=
  match v with
  | VUndefined => Ok "undefined"
  | VNull => Ok "null"
  | VBool true => Ok "true"
  | VBool false => Ok "false"
  | VNum n => Ok (Num.to_string n)
  | VStr s => Ok s
  | VArr l =>
    match
      (fix each (l : list value) : result (list string) :=
         match l with
         | [] => Ok []
         | x :: r =>
           match (if is_nullish x then Ok EmptyString else ToString x) with
           | Ok s => match each r with Ok ss => Ok (s :: ss) | Throw e => Throw e end
           | Throw e => Throw e
           end
         end) l
    with
    | Ok ss => Ok (join "," ss)
    | Throw e => Throw e
    end
  | VObj fs =>
    match lookup "toString" fs with
    | Some _ => Throw TypeError
    | None => Ok "[object Object]"
    end
  | VPromise => Ok "[object Promise]"
  end.

(** ** JSON.stringify *)

Definition hex_digit (n : Z) : ascii :=
  if n <? 10 then chr (48 + n) else chr (87 + n).

Definition quote_char (c : ascii) : string :=
  let n := code c in
  if n =? 34 then String backslash (str1 dquote)
  else if n =? 92 then String backslash (str1 backslash)
  else if n =? 8 then String backslash "b"
  else if n =? 12 then String backslash "f"
  else if n =? 10 then String backslash "n"
  else if n =? 13 then String backslash "r"
  else if n =? 9 then String backslash "t"
  else if n <? 32 then
    String backslash ("u00" ++ str1 (hex_digit (n / 16)) ++ str1 (hex_digit (n mod 16)))
  else str1 c.

Fixpoint quote_chars (s : string) : string :=
  match s with
  | EmptyString => EmptyString
  | String c r => quote_char c ++ quote_chars r
  end.

Definition quote (s : string) : string :=
  String dquote (quote_chars s ++ str1 dquote).

(** [None] is the result [undefined].  A property whose value has no JSON
    form is left out, such an array element is written [null]. *)
Fixpoint JSON_stringify (v : value) : option string :=
  match v with
  | VUndefined => None
  | VNull => Some "null"
  | VBool true => Some "true"
  | VBool false => Some "false"
  | VNum n => Some (Num.to_string n)
  | VStr s => Some (quote s)
  | VArr l =>
    Some ("[" ++ join "," (map (fun x => match JSON_stringify x with
                                         | Some s => s
                                         | None => "null"
                                         end) l) ++ "]")
  | VObj fs =>
    Some ("{" ++ join "," (flat_map (fun kx => match JSON_stringify (snd kx) with
                                              | Some s => [quote (fst kx) ++ ":" ++ s]
                                              | None => []
                                              end) fs) ++ "}")
  | VPromise => Some "{}"
  end.

(** A template literal prints [undefined] for the result [undefined]. *)
Definition template_part (s : option string) : string :=
  match s with
  | Some x => x
  | None => "undefined"
  end.

(** ** JSON.parse

    A recursive-descent reader of the JSON grammar (ECMA-404).  The fuel of
    [parse_value] bounds the number of nested calls; a call needs no more
    fuel than it consumes characters, so the length of the text is enough
    ([JSON_parse_fuel] below). *)

Definition is_ws (c : ascii) : bool :=
  let n := code c in
  (n =? 32) || (n =? 9) || (n =? 10) || (n =? 13).

Fixpoint skip_ws (s : list ascii) : list ascii :=
  match s with
  | c :: r => if is_ws c then skip_ws r else s
  | [] => []
  end.

Fixpoint span_digits (s : list ascii) : list ascii * list ascii :=
  match s with
  | c :: r =>
    if is_digit c then let '(ds, rest) := span_digits r in (c :: ds, rest)
    else ([], s)
  | [] => ([], [])
  end.

Definition hex_value (c : ascii) : option Z :=
  let n := code c in
  if (48 <=? n) && (n <=? 57) then Some (n - 48)
  else if (65 <=? n) && (n <=? 70) then Some (n - 55)
  else if (97 <=? n) && (n <=? 102) then Some (n - 87)
  else None.

(** The UTF-8 bytes of the code unit [u], most significant first. *)
Definition utf8 (u : Z) : list ascii :=
  if u <? 128 then [chr u]
  else if u <? 2048 then [chr (192 + u / 64); chr (128 + u mod 64)]
  else [chr (224 + u / 4096); chr (128 + (u / 64) mod 64); chr (128 + u mod 64)].

(** The characters of a string literal after its opening quote; [acc] holds
    the characters read so far, last first. *)
Fixpoint parse_string (s : list ascii) (acc : list ascii) : option (string * list ascii) :=
  match s with
  | [] => None
  | c :: r =>
    if code c =? 34 then Some (string_of_list_ascii (rev acc), r)
    else if code c =? 92 then
      match r with
      | [] => None
      | e :: r' =>
        let n := code e in
        if n =? 34 then parse_string r' (dquote :: acc)
        else if n =? 92 then parse_string r' (backslash :: acc)
        else if n =? 47 then parse_string r' ("/"%char :: acc)
        else if n =? 98 then parse_string r' (chr 8 :: acc)
        else if n =? 102 then parse_string r' (chr 12 :: acc)
        else if n =? 110 then parse_string r' (chr 10 :: acc)
        else if n =? 114 then parse_string r' (chr 13 :: acc)
        else if n =? 116 then parse_string r' (chr 9 :: acc)
        else if n =? 117 then
          match r' with
          | h1 :: h2 :: h3 :: h4 :: r'' =>
            match hex_value h1, hex_value h2, hex_value h3, hex_value h4 with
            | Some a, Some b, Some c', Some d =>
              parse_string r'' (rev (utf8 (a * 4096 + b * 256 + c' * 16 + d)) ++ acc)%list
            | _, _, _, _ => None
            end
          | _ => None
          end
        else None
      end
    else if code c <? 32 then None
    else parse_string r (c :: acc)
  end.

(** A number literal: [-]? int frac? exp?. *)
Definition parse_number (s : list ascii) : option (Num.number * list ascii) :=
  let '(neg, s1) :=
    match s with
    | c :: r => if code c =? 45 then (true, r) else (false, s)
    | [] => (false, s)
    end in
  let '(int, s2) := span_digits s1 in
  match int with
  | [] => None
  | d :: more =>
    if (code d =? 48) && negb (match more with [] => true | _ => false end) then None
    else
      let frac :=
        match s2 with
        | c :: r =>
          if code c =? 46 then
            let '(fs, s3) := span_digits r in
            match fs with [] => None | _ => Some (fs, s3) end
          else Some ([], s2)
        | [] => Some ([], s2)
        end in
      match frac with
      | None => None
      | Some (fs, s3) =>
        let exp :=
          match s3 with
          | c :: r =>
            if (code c =? 101) || (code c =? 69) then
              let '(eneg, r1) :=
                match r with
                | sg :: r' =>
                  if code sg =? 45 then (true, r')
                  else if code sg =? 43 then (false, r')
                  else (false, r)
                | [] => (false, r)
                end in
              let '(es, s4) := span_digits r1 in
              match es with
              | [] => None
              | _ => Some ((if eneg then - number_of_digits es else number_of_digits es), s4)
              end
            else Some (0, s3)
          | [] => Some (0, s3)
          end in
        match exp with
        | None => None
        | Some (e, s4) =>
          Some (Num.of_decimal neg (int ++ fs)%list (e - Z.of_nat (List.length fs)), s4)
        end
      end
  end.

Fixpoint strip_prefix (p s : list ascii) : option (list ascii) :=
  match p, s with
  | [], _ => Some s
  | a :: p', b :: s' => if Ascii.eqb a b then strip_prefix p' s' else None
  | _ :: _, [] => None
  end.

(** Whether the key [k] comes before the key [k'] in the order of an object's
    own properties when [k] is new: array indexes first, ascending, then the
    other names as they were created. *)
Definition goes_before (k k' : string) : bool :=
  match array_index k, array_index k' with
  | Some i, Some j => Nat.ltb i j
  | Some _, None => true
  | None, _ => false
  end.

(** CreateDataProperty: a key that is present keeps its place and takes the
    new value. *)
Fixpoint define_property (fs : list (string * value)) (k : string) (v : value)
  : list (string * value) :=
  match fs with
  | [] => [(k, v)]
  | (k', v') :: r =>
    if String.eqb k k' then (k', v) :: r
    else if goes_before k k' && negb (existsb (fun kx => String.eqb k (fst kx)) r)
    then (k, v) :: fs
    else (k', v') :: define_property r k v
  end.

(** What reading a value, the elements of an array and the members of an
    object gives: the value read and the rest of the text. *)
Definition parsed : Type := option (value * list ascii).

(** A value, given how the members of an object and the elements of an
    array are read. *)
Definition value_step
  (read_members : list ascii -> list (string * value) -> parsed)
  (read_elements : list ascii -> list value -> parsed)
  (s : list ascii) : parsed :=
  match skip_ws s with
  | [] => None
  | c :: r =>
    let n := code c in
    if n =? 123 then
      match skip_ws r with
      | c' :: r' => if code c' =? 125 then Some (VObj [], r') else read_members r []
      | [] => None
      end
    else if n =? 91 then
      match skip_ws r with
      | c' :: r' => if code c' =? 93 then Some (VArr [], r') else read_elements r []
      | [] => None
      end
    else if n =? 34 then
      match parse_string r [] with
      | Some (str, r') => Some (VStr str, r')
      | None => None
      end
    else if n =? 116 then
      match strip_prefix (list_ascii_of_string "rue") r with
      | Some r' => Some (VBool true, r')
      | None => None
      end
    else if n =? 102 then
      match strip_prefix (list_ascii_of_string "alse") r with
      | Some r' => Some (VBool false, r')
      | None => None
      end
    else if n =? 110 then
      match strip_prefix (list_ascii_of_string "ull") r with
      | Some r' => Some (VNull, r')
      | None => None
      end
    else
      match parse_number (c :: r) with
      | Some (x, r') => Some (VNum x, r')
      | None => None
      end
  end.

(** The elements of an array after [acc] (last first), up to its bracket. *)
Definition elements_step
  (read_value : list ascii -> parsed)
  (read_elements : list ascii -> list value -> parsed)
  (s : list ascii) (acc : list value) : parsed :=
  match read_value s with
  | Some (v, r) =>
    match skip_ws r with
    | c :: r' =>
      if code c =? 44 then read_elements r' (v :: acc)
      else if code c =? 93 then Some (VArr (rev (v :: acc)), r')
      else None
    | [] => None
    end
  | None => None
  end.

(** The members of an object after those of [acc], up to its brace. *)
Definition members_step
  (read_value : list ascii -> parsed)
  (read_members : list ascii -> list (string * value) -> parsed)
  (s : list ascii) (acc : list (string * value)) : parsed :=
  match skip_ws s with
  | q :: r =>
    if code q =? 34 then
      match parse_string r [] with
      | Some (k, r1) =>
        match skip_ws r1 with
        | col :: r2 =>
          if code col =? 58 then
            match read_value r2 with
            | Some (v, r3) =>
              let acc' := define_property acc k v in
              match skip_ws r3 with
              | c :: r4 =>
                if code c =? 44 then read_members r4 acc'
                else if code c =? 125 then Some (VObj acc', r4)
                else None
              | [] => None
              end
            | None => None
            end
          else None
        | [] => None
        end
      | None => None
      end
    else None
  | [] => None
  end.

Fixpoint parse_value (fuel : nat) (s : list ascii) {struct fuel} : parsed :=
  match fuel with
  | O => None
  | S f => value_step (parse_members f) (parse_elements f) s
  end

with parse_elements (fuel : nat) (s : list ascii) (acc : list value) {struct fuel} : parsed :=
  match fuel with
  | O => None
  | S f => elements_step (parse_value f) (parse_elements f) s acc
  end

with parse_members (fuel : nat) (s : list ascii) (acc : list (string * value)) {struct fuel}
  : parsed :=
  match fuel with
  | O => None
  | S f => members_step (parse_value f) (parse_members f) s acc
  end.

(** [JSON.parse(text)] for a string [text]; [None] is the SyntaxError. *)
Definition JSON_parse (text : string) : option value :=
  let s := list_ascii_of_string text in
  match parse_value (S (List.length s)) s with
  | Some (v, r) => match skip_ws r with [] => Some v | _ => None end
  | None => None
  end.

(** ** Base64 (RFC 4648, with padding), as [readAsBase64] of the host. *)

Definition base64_alphabet : list ascii :=
  list_ascii_of_string "ABCDEFGHIJKLMNOPQRSTUVWXYZabcdefghijklmnopqrstuvwxyz0123456789+/".

Definition base64_char (n : Z) : ascii :=
  nth (Z.to_nat n) base64_alphabet "="%char.

Fixpoint base64_chars (bs : list ascii) : list ascii :=
  match bs with
  | [] => []
  | [a] =>
    let n := code a * 65536 in
    [base64_char (n / 262144); base64_char ((n / 4096) mod 64); "="%char; "="%char]
  | [a; b] =>
    let n := code a * 65536 + code b * 256 in
    [base64_char (n / 262144); base64_char ((n / 4096) mod 64);
     base64_char ((n / 64) mod 64); "="%char]
  | a :: b :: c :: r =>
    let n := code a * 65536 + code b * 256 + code c in
    base64_char (n / 262144) :: base64_char ((n / 4096) mod 64)
    :: base64_char ((n / 64) mod 64) :: base64_char (n mod 64) :: base64_chars r
  end.

Definition base64 (bytes : string) : string :=
  string_of_list_ascii (base64_chars (list_ascii_of_string bytes)).

(** ** Effects

    A script runs against a [World]: the files of the host and the endpoint
    behind [fetch].  Its run threads a [state]: the objects made by
    [JSON.parse] (the heap; a variable that holds such an object holds a
    [pointer] into it, so that a write through one variable would be seen
    through every other) and the log of the host operations it started. *)

Record request : Type := mkRequest {
  url : string;
  method : string;
  headers : list (string * string);
  body : option string
}.

Record Response : Type := mkResponse {
  status : Z;
  statusText : string;
  text : string
}.

(** [response.ok]: the status is in the range 200-299. *)
Definition ok (r : Response) : bool := (200 <=? status r) && (status r <=? 299).

Record World : Type := mkWorld {
  files : string -> option string;
  endpoint : request -> option Response
}.

(** [context.parameters], each read by the scripts [as string]. *)
Record Context : Type := mkContext {
  inputDataPath : string;
  documentPath : string;
  dasConnector : string;
  applicationId : string
}.

Inductive event : Type :=
| ERead (path : string)
| EReadAsBase64 (path : string)
| EFetch (r : request)
| EConsoleLog (message : string).

Record pointer : Type := mkPointer { ploc : nat; ppath : list key }.

Record state : Type := mkState { heap : list value; log : list event }.

Definition M (A : Type) : Type := state -> result A * state.

Definition ret {A : Type} (a : A) : M A := fun s => (Ok a, s).

Definition throw {A : Type} (e : error) : M A := fun s => (Throw e, s).

Definition bind {A B : Type} (m : M A) (k : A -> M B) : M B :=
  fun s =>
    match m s with
    | (Ok a, s') => k a s'
    | (Throw e, s') => (Throw e, s')
    end.

Notation "x <- m ;; k" := (bind m (fun x => k))
  (at level 61, m at next level, right associativity).
Notation "m ;;; k" := (bind m (fun _ => k))
  (at level 61, right associativity).

Definition lift {A : Type} (r : result A) : M A := fun s => (r, s).

Definition emit (e : event) : M unit :=
  fun s => (Ok tt, mkState (heap s) (log s ++ [e])).

(** The value a pointer leads to. *)
Definition resolve (h : list value) (p : pointer) : value :=
  fold_left get (ppath p) (nth (ploc p) h VUndefined).

(** The pointer to [x.k]. *)
Definition at_key (x : pointer) (k : key) : pointer :=
  mkPointer (ploc x) (ppath x ++ [k]).

Definition alloc (v : value) : M pointer :=
  fun s => (Ok (mkPointer (List.length (heap s)) []), mkState (heap s ++ [v]) (log s)).

Definition load (p : pointer) : M value :=
  fun s => (Ok (resolve (heap s) p), s).

(** [x.k] and [x[i]]: throws on [undefined] and [null]. *)
Definition member (x : pointer) (k : key) : M pointer :=
  fun s =>
    if is_nullish (resolve (heap s) x) then (Throw TypeError, s)
    else (Ok (at_key x k), s).

(** [x.k] read as a value. *)
Definition prop (x : pointer) (k : key) : M value :=
  p <- member x k ;; load p.

(** [xs.forEach(callback)]: [xs] must be an array; the callback is called on
    every element in order and what it returns is dropped. *)
Fixpoint forEach_from (xs : pointer) (i n : nat) (callback : pointer -> M value) : M unit :=
  match n with
  | O => ret tt
  | S n' =>
    callback (at_key xs (Idx i)) ;;;
    forEach_from xs (S i) n' callback
  end.

Definition forEach (xs : pointer) (callback : pointer -> M value) : M unit :=
  fun s =>
    match resolve (heap s) xs with
    | VArr l => forEach_from xs 0 (List.length l) callback s
    | _ => (Throw TypeError, s)
    end.

(** [context.getFile(path).read()] *)
Definition read (w : World) (path : string) : M string :=
  emit (ERead path) ;;;
  match files w path with
  | Some content => ret content
  | None => throw (ReadError path)
  end.

(** [context.getFile(path).readAsBase64()] *)
Definition readAsBase64 (w : World) (path : string) : M string :=
  emit (EReadAsBase64 path) ;;;
  match files w path with
  | Some content => ret (base64 content)
  | None => throw (ReadError path)
  end.

(** [fetch(url, {method, headers, body})] *)
Definition fetch (w : World) (r : request) : M Response :=
  emit (EFetch r) ;;;
  match endpoint w r with
  | Some response => ret response
  | None => throw NetworkError
  end.

(** [JSON.parse(text)] for a string [text]: the value read is a new object. *)
Definition JSON_parse_text (text : string) : M pointer :=
  match JSON_parse text with
  | Some v => alloc v
  | None => throw SyntaxError
  end.

(** [JSON.parse(x)] for any [x]: [x] is first converted to a string. *)
Definition JSON_parse_any (x : pointer) : M pointer :=
  v <- load x ;;
  text <- lift (ToString v) ;;
  JSON_parse_text text.

(** [response.json()] *)
Definition Response_json (r : Response) : M pointer := JSON_parse_text (text r).

(** A call of an async function that is not awaited: the call runs up to the
    host operation it starts, the caller gets the promise and no exception. *)
Definition not_awaited {A : Type} (m : M A) : M value :=
  fun s => (Ok VPromise, snd (m s)).

Definition console_log (message : string) : M unit := emit (EConsoleLog message).

Definition json_headers : list (string * string) :=
  [("Content-Type", "application/json"); ("Accept", "application/json")].

(** One entry of the metadata list. *)
Definition metadata_entry (name type : string) (v : value) : value :=
  VObj [("name", VStr name); ("type", VStr type); ("value", v); ("isReadOnly", VBool true)].

(** The message of the error thrown for a response that is not ok. *)
Definition non_ok_message (r : Response) (json : value) : string :=
  "Non-OK DAS API response: " ++ Num.to_string (Num.of_Z (status r)) ++ " "
  ++ statusText r ++ ":" ++ template_part (JSON_stringify json).

(** * Part II: the scripts *)

(** ** The variant that returns the document id *)

Module WithDocumentId.

(** The object [getDescription] returns. *)
Definition getDescription : value :=
  VObj [
    ("description", VStr "Script to upload Evolve documents to Digital Advantage");
    ("icon", VStr "upload");
    ("input", VArr [
      VObj [("id", VStr "inputDataPath");
            ("displayName", VStr "Input data file path");
            ("description",
             VStr "Path to the data file to read input from (JSON format).");
            ("type", VStr "InputResource");
            ("required", VBool true)];
      VObj [("id", VStr "documentPath");
            ("displayName", VStr "Document path");
            ("description", VStr "Path to the document to be uploaded.");
            ("type", VStr "InputResource");
            ("required", VBool true)];
      VObj [("id", VStr "dasConnector");
            ("displayName", VStr "DAS connector");
            ("description",
             VStr "The web endpoint connector configured with the URL of Digital Advantage instance to use.");
            ("defaultValue", VStr "/api/query/MobileBackend/ContentUploadV4");
            ("type", VStr "Connector");
            ("required", VBool true)];
      VObj [("id", VStr "applicationId");
            ("displayName", VStr "Application ID");
            ("description", VStr "The Digital Advantage application identifier.");
            ("type", VStr "String");
            ("required", VBool true)]]);
    ("output", VArr [
      VObj [("id", VStr "documentId");
            ("displayName", VStr "Document ID");
            ("description", VStr "The ID assigned to the uploaded document.");
            ("type", VStr "Number")]])].

(** The interfaces the script declares; [*_json] is the object of that shape. *)

Record Hotel : Type := mkHotel {
  Hotel_id : Num.number;
  Hotel_name : string;
  Hotel_location : string;
  Hotel_imageName : string;
  Hotel_checkInTime : string;
  Hotel_checkOutTime : string;
  Hotel_rating : Num.number;
  Hotel_conciergeUrl : string
}.

Record Reservation : Type := mkReservation {
  id : Num.number;
  hotel : Hotel;
  confirmationNumber : Num.number;
  guests : Num.number;
  creditPrefix : Num.number;
  creditSuffix : Num.number;
  points : Num.number;
  checkInDate : string;
  checkOutDate : string;
  checkedIn : bool;
  guestName : string;
  guestEmail : string;
  guestClientId : string
}.

Record Client : Type := mkClient {
  ClientID : string;
  Reservation_of : Reservation
}.

Record InvoicePayload : Type := mkInvoicePayload {
  Clients : list Client
}.

Record DocumentProps : Type := mkDocumentProps {
  documentIndex : Num.number;
  DocumentProps_id : Num.number
}.

Record UploadResponse : Type := mkUploadResponse {
  eventId : string;
  documents : list DocumentProps
}.

Definition Hotel_json (h : Hotel) : value :=
  VObj [("id", VNum (Hotel_id h)); ("name", VStr (Hotel_name h));
        ("location", VStr (Hotel_location h)); ("imageName", VStr (Hotel_imageName h));
        ("checkInTime", VStr (Hotel_checkInTime h));
        ("checkOutTime", VStr (Hotel_checkOutTime h));
        ("rating", VNum (Hotel_rating h)); ("conciergeUrl", VStr (Hotel_conciergeUrl h))].

Definition Reservation_json (r : Reservation) : value :=
  VObj [("id", VNum (id r)); ("hotel", Hotel_json (hotel r));
        ("confirmationNumber", VNum (confirmationNumber r));
        ("guests", VNum (guests r)); ("creditPrefix", VNum (creditPrefix r));
        ("creditSuffix", VNum (creditSuffix r)); ("points", VNum (points r));
        ("checkInDate", VStr (checkInDate r)); ("checkOutDate", VStr (checkOutDate r));
        ("checkedIn", VBool (checkedIn r)); ("guestName", VStr (guestName r));
        ("guestEmail", VStr (guestEmail r)); ("guestClientId", VStr (guestClientId r))].

Definition Client_json (c : Client) : value :=
  VObj [("ClientID", VStr (ClientID c)); ("Reservation", Reservation_json (Reservation_of c))].

Definition InvoicePayload_json (p : InvoicePayload) : value :=
  VObj [("Clients", VArr (map Client_json (Clients p)))].

Definition DocumentProps_json (d : DocumentProps) : value :=
  VObj [("documentIndex", VNum (documentIndex d)); ("id", VNum (DocumentProps_id d))].

Definition UploadResponse_json (r : UploadResponse) : value :=
  VObj [("eventId", VStr (eventId r)); ("documents", VArr (map DocumentProps_json (documents r)))].

Definition readInputFile (w : World) (context : Context) : M pointer :=
  inputData <- read w (inputDataPath context) ;;
  JSON_parse_text inputData.

Definition readDocumentAsBase64 (w : World) (context : Context) : M string :=
  readAsBase64 w (documentPath context).

(** The object literal bound to [body] in [uploadDocument]; its property
    values are evaluated in the order they are written. *)
Definition uploadDocument_body (w : World) (context : Context) (data : pointer) : M value :=
  clientId <- prop data "guestClientId" ;;
  hotel <- member data "hotel" ;;
  hotelName <- prop hotel "name" ;;
  checkIn <- prop data "checkInDate" ;;
  checkOut <- prop data "checkOutDate" ;;
  guests <- prop data "guests" ;;
  points <- prop data "points" ;;
  reservationNumber <- prop data "confirmationNumber" ;;
  fileContent <- readDocumentAsBase64 w context ;;
  ret (VObj [("documents", VArr [VObj [
    ("clientAccessRights", VArr [VObj [("clientId", clientId); ("right", VStr "Delete")]]);
    ("fileName", VStr "invoice.pdf");
    ("name", VStr "Invoice");
    ("applicationId", VStr (applicationId context));
    ("publicAccessRight", VStr "None");
    ("metadata", VArr [
      metadata_entry "type" "Text" (VStr "reward_activity");
      metadata_entry "hotelName" "Text" hotelName;
      metadata_entry "checkIn" "Text" checkIn;
      metadata_entry "checkOut" "Text" checkOut;
      metadata_entry "guests" "Number" guests;
      metadata_entry "points" "Number" points;
      metadata_entry "reservationNumber" "Number" reservationNumber]);
    ("fileContent", VStr fileContent)]])]).

Definition uploadDocument (w : World) (context : Context) (data : pointer) : M pointer :=
  body <- uploadDocument_body w context data ;;
  let headers := json_headers in
  response <- fetch w (mkRequest (dasConnector context) "POST" headers (JSON_stringify body)) ;;
  json <- Response_json response ;;
  if negb (ok response) then
    j <- load json ;;
    throw (Error (non_ok_message response j))
  else
    JSON_parse_any json.

Definition getDocumentId (response : pointer) : M value :=
  documents <- member response "documents" ;;
  forEach documents (fun document =>
    documentIndex <- prop document "documentIndex" ;;
    if strict_eq_num documentIndex (Num.of_Z 0) then prop document "id"
    else ret VUndefined) ;;;
  throw (Error "No document ID found in upload response").

Definition execute (w : World) (context : Context) : M value :=
  input <- readInputFile w context ;;
  clients <- member input "Clients" ;;
  client <- member clients (Idx 0) ;;
  reservation <- member client "Reservation" ;;
  response <- uploadDocument w context reservation ;;
  documentId <- getDocumentId response ;;
  ret (VObj [("documentId", documentId)]).

End WithDocumentId.

(** ** The variant that uploads for the first client *)

Module FirstClient.

(** The object [getDescription] returns. *)
Definition getDescription : value :=
  VObj [
    ("description", VStr "Script to upload Evolve documents to Digital Advantage");
    ("icon", VStr "upload");
    ("input", VArr [
      VObj [("id", VStr "inputDataPath");
            ("displayName", VStr "Input data file path");
            ("description",
             VStr "Path to the data file to read input from (JSON format).");
            ("type", VStr "InputResource");
            ("required", VBool true)];
      VObj [("id", VStr "documentPath");
            ("displayName", VStr "Document path");
            ("description", VStr "Path to the document to be uploaded.");
            ("type", VStr "InputResource");
            ("required", VBool true)];
      VObj [("id", VStr "dasConnector");
            ("displayName", VStr "DAS connector");
            ("description",
             VStr "The web endpoint connector configured with the URL of Digital Advantage instance to use.");
            ("defaultValue", VStr "/api/query/MobileBackend/ContentUploadV4");
            ("type", VStr "Connector");
            ("required", VBool true)];
      VObj [("id", VStr "applicationId");
            ("displayName", VStr "Application ID");
            ("description", VStr "The Digital Advantage application identifier.");
            ("type", VStr "String");
            ("required", VBool true)]])].

Record Hotel : Type := mkHotel {
  Hotel_id : Num.number;
  Hotel_name : string;
  Hotel_location : string;
  Hotel_imageName : string;
  Hotel_checkInTime : string;
  Hotel_checkOutTime : string;
  Hotel_rating : Num.number;
  Hotel_conciergeUrl : string
}.

Record Client : Type := mkClient {
  ClientID : string;
  id : Num.number;
  hotel : Hotel;
  checkedIn : bool;
  confirmationNumber : Num.number;
  guests : Num.number;
  creditPrefix : Num.number;
  creditSuffix : Num.number;
  checkInDate : string;
  checkOutDate : string;
  points : Num.number;
  guestName : string;
  guestEmail : string;
  guestClientId : string
}.

Record InvoicePayload : Type := mkInvoicePayload {
  Clients : list Client
}.

Definition Hotel_json (h : Hotel) : value :=
  VObj [("id", VNum (Hotel_id h)); ("name", VStr (Hotel_name h));
        ("location", VStr (Hotel_location h)); ("imageName", VStr (Hotel_imageName h));
        ("checkInTime", VStr (Hotel_checkInTime h));
        ("checkOutTime", VStr (Hotel_checkOutTime h));
        ("rating", VNum (Hotel_rating h)); ("conciergeUrl", VStr (Hotel_conciergeUrl h))].

Definition Client_json (c : Client) : value :=
  VObj [("ClientID", VStr (ClientID c)); ("id", VNum (id c)); ("hotel", Hotel_json (hotel c));
        ("checkedIn", VBool (checkedIn c));
        ("confirmationNumber", VNum (confirmationNumber c));
        ("guests", VNum (guests c)); ("creditPrefix", VNum (creditPrefix c));
        ("creditSuffix", VNum (creditSuffix c));
        ("checkInDate", VStr (checkInDate c)); ("checkOutDate", VStr (checkOutDate c));
        ("points", VNum (points c)); ("guestName", VStr (guestName c));
        ("guestEmail", VStr (guestEmail c)); ("guestClientId", VStr (guestClientId c))].

Definition InvoicePayload_json (p : InvoicePayload) : value :=
  VObj [("Clients", VArr (map Client_json (Clients p)))].

Definition readInputFile (w : World) (context : Context) : M pointer :=
  inputData <- read w (inputDataPath context) ;;
  JSON_parse_text inputData.

Definition readDocumentAsBase64 (w : World) (context : Context) : M string :=
  readAsBase64 w (documentPath context).

Definition uploadDocument_body (w : World) (context : Context) (data : pointer) : M value :=
  clientId <- prop data "guestClientId" ;;
  hotel <- member data "hotel" ;;
  hotelName <- prop hotel "name" ;;
  checkIn <- prop data "checkInDate" ;;
  checkOut <- prop data "checkOutDate" ;;
  guests <- prop data "guests" ;;
  points <- prop data "points" ;;
  reservationNumber <- prop data "confirmationNumber" ;;
  fileContent <- readDocumentAsBase64 w context ;;
  ret (VObj [("documents", VArr [VObj [
    ("clientAccessRights", VArr [VObj [("clientId", clientId); ("right", VStr "Delete")]]);
    ("fileName", VStr "invoice.pdf");
    ("name", VStr "Invoice");
    ("applicationId", VStr (applicationId context));
    ("publicAccessRight", VStr "None");
    ("metadata", VArr [
      metadata_entry "type" "Text" (VStr "reward_activity");
      metadata_entry "hotelName" "Text" hotelName;
      metadata_entry "checkIn" "Text" checkIn;
      metadata_entry "checkOut" "Text" checkOut;
      metadata_entry "guests" "Number" guests;
      metadata_entry "points" "Number" points;
      metadata_entry "reservationNumber" "Number" reservationNumber]);
    ("fileContent", VStr fileContent)]])]).

Definition uploadDocument (w : World) (context : Context) (data : pointer) : M unit :=
  body <- uploadDocument_body w context data ;;
  let headers := json_headers in
  response <- fetch w (mkRequest (dasConnector context) "POST" headers (JSON_stringify body)) ;;
  json <- Response_json response ;;
  if negb (ok response) then
    j <- load json ;;
    throw (Error (non_ok_message response j))
  else
    ret tt.

Definition execute (w : World) (context : Context) : M value :=
  input <- readInputFile w context ;;
  clients <- member input "Clients" ;;
  client <- member clients (Idx 0) ;;
  uploadDocument w context client ;;;
  ret VUndefined.

End FirstClient.

(** ** src/index.ts *)

Module Index.

(** The object [getDescription] returns. *)
Definition getDescription : value :=
  VObj [
    ("description", VStr "Script to upload Evolve documents to Digital Advantage");
    ("input", VArr [
      VObj [("id", VStr "inputDataPath");
            ("displayName", VStr "Input data file path");
            ("description",
             VStr "Path to the data file to read input from (JSON format).");
            ("type", VStr "InputResource");
            ("required", VBool true)];
      VObj [("id", VStr "documentPath");
            ("displayName", VStr "Document path");
            ("description", VStr "Path to the document to be uploaded.");
            ("type", VStr "InputResource");
            ("required", VBool true)];
      VObj [("id", VStr "dasConnector");
            ("displayName", VStr "DAS connector");
            ("description",
             VStr "The web endpoint connector configured with the URL of Digital Advantage instance to use.");
            ("type", VStr "Connector");
            ("required", VBool true)];
      VObj [("id", VStr "applicationId");
            ("displayName", VStr "Application ID");
            ("description", VStr "The Digital Advantage application identifier.");
            ("type", VStr "String");
            ("required", VBool true)]])].

Definition readInputFile (w : World) (context : Context) : M string :=
  let inputDataPath := inputDataPath context in
  read w inputDataPath.

Definition readDocumentAsBase64 (w : World) (context : Context) : M string :=
  let documentPath := documentPath context in
  readAsBase64 w documentPath.

(** [fileContent] is the call of [readDocumentAsBase64] itself: the promise,
    not the text it resolves to. *)
Definition uploadDocument_body (w : World) (context : Context) (jsonData : pointer) : M value :=
  clientId <- prop jsonData "guestClientId" ;;
  hotelName <- prop jsonData "hotelName" ;;
  checkIn <- prop jsonData "checkInDate" ;;
  checkOut <- prop jsonData "checkOutDate" ;;
  guests <- prop jsonData "guests" ;;
  points <- prop jsonData "points" ;;
  reservationNumber <- prop jsonData "reservationNumber" ;;
  fileContent <- not_awaited (readDocumentAsBase64 w context) ;;
  ret (VObj [("documents", VArr [VObj [
    ("clientAccessRights", VArr [VObj [("clientId", clientId); ("right", VStr "Delete")]]);
    ("fileName", VStr "string");
    ("name", VStr "string");
    ("applicationId", VStr (applicationId context));
    ("publicAccessRight", VStr "None");
    ("metadata", VArr [
      metadata_entry "type" "Text" (VStr "reward_activity");
      metadata_entry "hotelName" "Text" hotelName;
      metadata_entry "checkIn" "Text" checkIn;
      metadata_entry "checkOut" "Text" checkOut;
      metadata_entry "guests" "Number" guests;
      metadata_entry "points" "Number" points;
      metadata_entry "reservationNumber" "Number" reservationNumber]);
    ("fileContent", fileContent)]])]).

Definition uploadDocument (w : World) (context : Context) (data : string) : M unit :=
  jsonData <- JSON_parse_text data ;;
  body <- uploadDocument_body w context jsonData ;;
  let headers := json_headers in
  console_log "Calling DAS API to upload document" ;;;
  let dasConnector := dasConnector context in
  response <- fetch w (mkRequest (dasConnector ++ "/api/query/MobileBackend/ContentUploadV4")
                                 "POST" headers (JSON_stringify body)) ;;
  console_log "DAS API response: [object Response]" ;;;
  json <- Response_json response ;;
  if negb (ok response) then
    j <- load json ;;
    throw (Error (non_ok_message response j))
  else
    ret tt.

Definition execute (w : World) (context : Context) : M value :=
  inputJson <- readInputFile w context ;;
  uploadDocument w context inputJson ;;;
  ret VUndefined.

End Index.

(** ** The three scripts together *)

Inductive script : Type := index_ts | first_client | with_document_id.

Definition execute_of (sc : script) : World -> Context -> M value :=
  match sc with
  | index_ts => Index.execute
  | first_client => FirstClient.execute
  | with_document_id => WithDocumentId.execute
  end.

Definition uploadDocument_body_of (sc : script) : World -> Context -> pointer -> M value :=
  match sc with
  | index_ts => Index.uploadDocument_body
  | first_client => FirstClient.uploadDocument_body
  | with_document_id => WithDocumentId.uploadDocument_body
  end.

(** * Part III: the specification *)

(** ** Observations *)

(** The HTTP requests in a log, oldest first. *)
Fixpoint requests (l : list event) : list request :=
  match l with
  | [] => []
  | EFetch r :: l' => r :: requests l'
  | _ :: l' => requests l'
  end.

(** The run of [m] from [s] issues exactly one request, [r]. *)
Definition issues {A : Type} (m : M A) (s : state) (r : request) : Prop :=
  requests (log (snd (m s))) = (requests (log s) ++ [r])%list.

(** The run of [m] from [s] issues no request. *)
Definition silent {A : Type} (m : M A) (s : state) : Prop :=
  requests (log (snd (m s))) = requests (log s).

(** The parts of a request body. *)
Definition document_of (body : value) : value := get (get body "documents") (Idx 0).
Definition metadata_of (body : value) : value := get (document_of body) "metadata".
Definition fileContent_of (body : value) : value := get (document_of body) "fileContent".

(** The response [execute] hands to [getDocumentId]. *)
Definition execute_response (w : World) (context : Context) : M pointer :=
  input <- WithDocumentId.readInputFile w context ;;
  clients <- member input "Clients" ;;
  client <- member clients (Idx 0) ;;
  reservation <- member client "Reservation" ;;
  WithDocumentId.uploadDocument w context reservation.

(** ** Sample data

    JSON texts are written with ['] for the double quote. *)

Definition json_text (s : string) : string :=
  string_of_list_ascii
    (map (fun c => if Ascii.eqb c "'" then dquote else c) (list_ascii_of_string s)).

Definition initial : state := mkState [] [].

Definition sample_context : Context :=
  mkContext "input.json" "invoice.pdf" "https://das.example/upload" "app-1".

Definition sample_document : string := "0123456789".

Definition reservation_text : string :=
  json_text "{'id':7,'hotel':{'id':3,'name':'Grand Hotel','location':'Prague','imageName':'g.png','checkInTime':'14:00','checkOutTime':'11:00','rating':4.5,'conciergeUrl':'https://c'},'confirmationNumber':1234,'guests':2,'creditPrefix':1,'creditSuffix':2,'points':150,'checkInDate':'2023-05-01','checkOutDate':'2023-05-03','checkedIn':false,'guestName':'A','guestEmail':'a@b.c','guestClientId':'c-9'}".

(** The record that [reservation_text] writes. *)
Definition sample_reservation : WithDocumentId.Reservation :=
  WithDocumentId.mkReservation (Num.of_Z 7)
    (WithDocumentId.mkHotel (Num.of_Z 3) "Grand Hotel" "Prague" "g.png" "14:00" "11:00"
                            (Num.mk 45 (-1)) "https://c")
    (Num.of_Z 1234) (Num.of_Z 2) (Num.of_Z 1) (Num.of_Z 2) (Num.of_Z 150)
    "2023-05-01" "2023-05-03" false "A" "a@b.c" "c-9".

(** The input of [WithDocumentId]: clients that hold a reservation. *)
Definition sample_input : string :=
  json_text "{'Clients':[{'ClientID':'c-9','Reservation':" ++ reservation_text ++ "}]}".

(** The input of [FirstClient]: clients that are the reservation. *)
Definition sample_client_input : string :=
  json_text "{'Clients':[" ++ reservation_text ++ "]}".

(** The input of [Index]: the example record of the specification. *)
Definition sample_flat_input : string :=
  json_text "{'hotelName':'Grand Hotel','checkInDate':'2023-05-01','checkOutDate':'2023-05-03','guests':2,'points':150,'confirmationNumber':1234,'guestClientId':'c-9'}".

Definition malformed_input : string := json_text "{'Clients':[".

Definition no_clients_input : string := json_text "{'Clients':[]}".

(** The world with the input file [input], the sample document, and an
    endpoint that answers [reply] to every request. *)
Definition world_of (input : string) (reply : Response) : World :=
  mkWorld
    (fun path =>
       if String.eqb path "input.json" then Some input
       else if String.eqb path "invoice.pdf" then Some sample_document
       else None)
    (fun _ => Some reply).

Definition upload_response_text : string :=
  json_text "{'eventId':'e-1','documents':[{'documentIndex':0,'id':42}]}".

Definition reply_ok : Response := mkResponse 200 "OK" upload_response_text.

(** The same response sent as a JSON string that holds the JSON text. *)
Definition reply_ok_quoted : Response :=
  mkResponse 200 "OK" (quote upload_response_text).

Definition reply_other_index_quoted : Response :=
  mkResponse 200 "OK"
    (quote (json_text "{'eventId':'e-1','documents':[{'documentIndex':1,'id':42}]}")).

Definition reply_other_index : Response :=
  mkResponse 200 "OK"
    (json_text "{'eventId':'e-1','documents':[{'documentIndex':1,'id':42}]}").

Definition reply_not_found : Response :=
  mkResponse 404 "Not Found" (json_text "{'error':'no such application'}").

Definition reply_bad_gateway : Response :=
  mkResponse 502 "Bad Gateway" "<html>Bad Gateway</html>".

(** ** Properties of computations *)

Definition is_request (e : event) : bool :=
  match e with
  | EFetch _ => true
  | _ => false
  end.

(** A relation between the state before and the state after that every
    host operation other than [fetch] respects. *)
Class Frame (R : state -> state -> Prop) : Prop := {
  frame_refl : forall s, R s s;
  frame_trans : forall s1 s2 s3, R s1 s2 -> R s2 s3 -> R s1 s3;
  frame_alloc : forall s v, R s (mkState (heap s ++ [v]) (log s));
  frame_emit : forall s e, is_request e = false -> R s (mkState (heap s) (log s ++ [e]))
}.

(** Every run of [m] relates its first state to its last. *)
Definition steps (R : state -> state -> Prop) {A : Type} (m : M A) : Prop :=
  forall s, R s (snd (m s)).

(** The later state has every object of the earlier one, in its place and
    with its value, and maybe more. *)
Definition heap_extends (s s' : state) : Prop :=
  exists more, heap s' = (heap s ++ more)%list.

(** The later state has the requests of the earlier one and no more. *)
Definition same_requests (s s' : state) : Prop :=
  requests (log s') = requests (log s).

(** [heap_grows m]: [m] only adds objects to the heap.
    [quiet m]: [m] issues no request, from any state. *)
Abbreviation heap_grows := (steps heap_extends).
Abbreviation quiet := (steps same_requests).

(** [m] ends in an exception, from any state. *)
Definition never_returns {A : Type} (m : M A) : Prop :=
  forall s, exists e, fst (m s) = Throw e.

(** ** The request body the specification describes *)

Definition metadata_list
  (hotelName checkIn checkOut guests points reservationNumber : value) : value :=
  VArr [metadata_entry "type" "Text" (VStr "reward_activity");
        metadata_entry "hotelName" "Text" hotelName;
        metadata_entry "checkIn" "Text" checkIn;
        metadata_entry "checkOut" "Text" checkOut;
        metadata_entry "guests" "Number" guests;
        metadata_entry "points" "Number" points;
        metadata_entry "reservationNumber" "Number" reservationNumber].

Definition upload_body (fileName name : string) (context : Context)
  (clientId : value) (metadata : value) (fileContent : value) : value :=
  VObj [("documents", VArr [VObj [
    ("clientAccessRights", VArr [VObj [("clientId", clientId); ("right", VStr "Delete")]]);
    ("fileName", VStr fileName);
    ("name", VStr name);
    ("applicationId", VStr (applicationId context));
    ("publicAccessRight", VStr "None");
    ("metadata", metadata);
    ("fileContent", fileContent)]])].

(** The body for the record [v] of the scripts that read [v.hotel.name] and
    [v.confirmationNumber]. *)
Definition body_of_record (context : Context) (v : value) (fileContent : value) : value :=
  upload_body "invoice.pdf" "Invoice" context (get v "guestClientId")
    (metadata_list (get (get v "hotel") "name") (get v "checkInDate") (get v "checkOutDate")
                   (get v "guests") (get v "points") (get v "confirmationNumber"))
    fileContent.

(** The body for the flat record [v] of src/index.ts. *)
Definition body_of_flat_record (context : Context) (v : value) (fileContent : value) : value :=
  upload_body "string" "string" context (get v "guestClientId")
    (metadata_list (get v "hotelName") (get v "checkInDate") (get v "checkOutDate")
                   (get v "guests") (get v "points") (get v "reservationNumber"))
    fileContent.

(** The request of the scripts that post to the connector itself. *)
Definition post_request (context : Context) (body : value) : request :=
  mkRequest (dasConnector context) "POST" json_headers (JSON_stringify body).

(** The statements of [uploadDocument] that follow [fetch]: in the script
    that returns the response, and in the two that return nothing. *)
Definition after_fetch (response : Response) : M pointer :=
  json <- Response_json response ;;
  if negb (ok response) then
    j <- load json ;;
    throw (Error (non_ok_message response j))
  else
    JSON_parse_any json.

Definition after_fetch_unit (response : Response) : M unit :=
  json <- Response_json response ;;
  if negb (ok response) then
    j <- load json ;;
    throw (Error (non_ok_message response j))
  else
    ret tt.

(** The state once the request [r] is logged. *)
Definition fetched (s : state) (r : request) : state :=
  mkState (heap s) (log s ++ [EFetch r]).

(** The states of two calls of [execute] on the sample input, each at the
    point where [uploadDocument] is entered: in a first run, and in a run
    that follows a complete run. *)
Definition sample_world : World := world_of sample_input reply_ok.

Definition first_call : state :=
  snd (WithDocumentId.readInputFile sample_world sample_context initial).

Definition later_call : state :=
  snd (WithDocumentId.readInputFile sample_world sample_context
         (snd (WithDocumentId.execute sample_world sample_context initial))).

Definition reservation_at (l : nat) : pointer :=
  mkPointer l [Key "Clients"; Idx 0; Key "Reservation"].

(** The example record of the specification, as [JSON.parse] reads it. *)
Definition sample_flat_record : value :=
  VObj [("hotelName", VStr "Grand Hotel"); ("checkInDate", VStr "2023-05-01");
        ("checkOutDate", VStr "2023-05-03"); ("guests", VInt 2); ("points", VInt 150);
        ("confirmationNumber", VInt 1234); ("guestClientId", VStr "c-9")].

(** The response of [reply_other_index_quoted]. *)
Definition other_index_response : WithDocumentId.UploadResponse :=
  WithDocumentId.mkUploadResponse "e-1"
    [WithDocumentId.mkDocumentProps (Num.of_Z 1) (Num.of_Z 42)].

(** ** The scripts from the read of the input to the request *)

Definition getDescription_of (sc : script) : value :=
  match sc with
  | index_ts => Index.getDescription
  | first_client => FirstClient.getDescription
  | with_document_id => WithDocumentId.getDescription
  end.

(** The input that a description declares under the id [id]. *)
Definition declared_input (description : value) (id : string) : value :=
  match get description "input" with
  | VArr inputs =>
    match find (fun i => match get i "id" with
                         | VStr x => String.eqb x id
                         | _ => false
                         end) inputs with
    | Some i => i
    | None => VUndefined
    end
  | _ => VUndefined
  end.

(** The record a script uploads for, in the parsed input. *)
Definition record_of (sc : script) (input : value) : value :=
  match sc with
  | index_ts => input
  | first_client => get (get input "Clients") (Idx 0)
  | with_document_id => get (get (get input "Clients") (Idx 0)) "Reservation"
  end.

(** Whether the member accesses of a script on the parsed input go through:
    src/index.ts needs a record, the two others a record with a hotel. *)
Definition uploadable (sc : script) (input : value) : bool :=
  match sc with
  | index_ts => negb (is_nullish input)
  | _ => negb (is_nullish (get (record_of sc input) "hotel"))
  end.

Definition upload_path : string := "/api/query/MobileBackend/ContentUploadV4".

(** The URL a script posts to. *)
Definition target (sc : script) (context : Context) : string :=
  match sc with
  | index_ts => dasConnector context ++ upload_path
  | _ => dasConnector context
  end.

(** The body a script builds for the record [v] and the document. *)
Definition body_for (sc : script) (context : Context) (v : value) (document : string) : value :=
  match sc with
  | index_ts => body_of_flat_record context v VPromise
  | _ => body_of_record context v (VStr (base64 document))
  end.

Definition request_for (sc : script) (context : Context) (v : value) (document : string)
  : request :=
  mkRequest (target sc context) "POST" json_headers
            (JSON_stringify (body_for sc context v document)).

(** The state [s] with more in its log. *)
Definition logged (s : state) (evs : list event) : state :=
  mkState (heap s) (log s ++ evs).

(** The state once the input is read and parsed. *)
Definition with_input (s : state) (context : Context) (input : value) : state :=
  mkState (heap s ++ [input]) (log s ++ [ERead (inputDataPath context)]).

(** The state once the request is issued. *)
Definition sent (sc : script) (s : state) (context : Context) (input : value)
  (r : request) : state :=
  mkState (heap s ++ [input])
    (log s ++ ERead (inputDataPath context) :: EReadAsBase64 (documentPath context)
           :: match sc with
              | index_ts => [EConsoleLog "Calling DAS API to upload document"; EFetch r]
              | _ => [EFetch r]
              end).

(** What a script does with the response. *)
Definition conclude (sc : script) (r : Response) : M value :=
  match sc with
  | index_ts =>
    console_log "DAS API response: [object Response]" ;;;
    after_fetch_unit r ;;;
    ret VUndefined
  | first_client =>
    after_fetch_unit r ;;;
    ret VUndefined
  | with_document_id =>
    response <- after_fetch r ;;
    documentId <- WithDocumentId.getDocumentId response ;;
    ret (VObj [("documentId", documentId)])
  end.

(** The document a script waits for: src/index.ts waits for none. *)
Definition awaited_document (sc : script) (w : World) (context : Context) : option string :=
  match sc with
  | index_ts => Some EmptyString
  | _ => files w (documentPath context)
  end.

(** A run of [execute] as a table of its cases. *)
Definition outcome (sc : script) (w : World) (context : Context) (s : state)
  : result value * state :=
  let i := inputDataPath context in
  match files w i with
  | None => (Throw (ReadError i), logged s [ERead i])
  | Some inputData =>
    match JSON_parse inputData with
    | None => (Throw SyntaxError, logged s [ERead i])
    | Some input =>
      if uploadable sc input then
        match awaited_document sc w context with
        | None =>
          (Throw (ReadError (documentPath context)),
           logged (with_input s context input) [EReadAsBase64 (documentPath context)])
        | Some document =>
          let r := request_for sc context (record_of sc input) document in
          match endpoint w r with
          | None => (Throw NetworkError, sent sc s context input r)
          | Some response => conclude sc response (sent sc s context input r)
          end
        end
      else (Throw TypeError, with_input s context input)
    end
  end.

(** [m] adds nothing to the log, from any state. *)
Definition logless {A : Type} (m : M A) : Prop :=
  forall s, log (snd (m s)) = log s.

(** What a run of a script can add to the log: the read of the input, then
    the read of the document, then one request; src/index.ts also writes to
    the console before the request and after a response. *)
Definition trace_of (sc : script) (context : Context) (evs : list event) : Prop :=
  let input := ERead (inputDataPath context) in
  let document := EReadAsBase64 (documentPath context) in
  match sc with
  | index_ts =>
    let calling := EConsoleLog "Calling DAS API to upload document" in
    let answered := EConsoleLog "DAS API response: [object Response]" in
    evs = [input] \/
    (exists r, evs = [input; document; calling; EFetch r]) \/
    (exists r, evs = [input; document; calling; EFetch r; answered])
  | _ =>
    evs = [input] \/
    evs = [input; document] \/
    (exists r, evs = [input; document; EFetch r])
  end.

(** A world without the sample document, and one whose endpoint is down. *)
Definition world_without_document (input : string) (reply : Response) : World :=
  mkWorld (fun path => if String.eqb path "input.json" then Some input else None)
          (fun _ => Some reply).

Definition world_offline (input : string) : World :=
  mkWorld (files (world_of input reply_ok)) (fun _ => None).

Definition reply_no_content : Response := mkResponse 204 "No Content" EmptyString.

(** An input whose first client holds no hotel, a world without the input
    file, and the parameters with the connector that the descriptions give
    as the default. *)
Definition hotelless_input : string := json_text "{'Clients':[{'guestClientId':'c-9'}]}".

Definition world_without_input : World := mkWorld (fun _ => None) (fun _ => Some reply_ok).

Definition default_context : Context :=
  mkContext "input.json" "invoice.pdf" upload_path "app-1".

(** What [JSON.parse] reads from [hotelless_input] and from
    [sample_client_input]. *)
Definition hotelless_record : value :=
  VObj [("Clients", VArr [VObj [("guestClientId", VStr "c-9")]])].

Definition sample_clients : value :=
  VObj [("Clients", VArr [WithDocumentId.Reservation_json sample_reservation])].

(** ** JSON.parse has enough fuel *)

Lemma skip_ws_length (s : list ascii) : (List.length (skip_ws s) <= List.length s)%nat.
Proof.
  induction s as [|c s IH]; simpl; [lia|].
  destruct (is_ws c); simpl; lia.
Qed.

Lemma skip_ws_cons (s r : list ascii) (c : ascii) :
  skip_ws s = c :: r -> (List.length r < List.length s)%nat.
Proof.
  intros H. pose proof (skip_ws_length s) as L. rewrite H in L. simpl in L. lia.
Qed.

Lemma span_digits_length (s ds r : list ascii) :
  span_digits s = (ds, r) -> List.length s = (List.length ds + List.length r)%nat.
Proof.
  revert ds r. induction s as [|c s IH]; simpl; intros ds r H.
  - injection H as <- <-. reflexivity.
  - destruct (is_digit c).
    + destruct (span_digits s) as [ds' r'] eqn:E. injection H as <- <-.
      simpl. now rewrite (IH _ _ eq_refl).
    + injection H as <- <-. reflexivity.
Qed.

Lemma strip_prefix_length (p s r : list ascii) :
  strip_prefix p s = Some r -> (List.length r <= List.length s)%nat.
Proof.
  revert s. induction p as [|a p IH]; intros s H; simpl in H.
  - injection H as <-. lia.
  - destruct s as [|b s]; [discriminate|].
    destruct (Ascii.eqb a b); [|discriminate].
    apply IH in H. simpl. lia.
Qed.

Lemma parse_string_length (n : nat) :
  forall (s acc : list ascii) (str : string) (r : list ascii),
    (List.length s <= n)%nat ->
    parse_string s acc = Some (str, r) -> (List.length r < List.length s)%nat.
Proof.
  induction n as [|n IH]; intros s acc str r Hn H.
  - destruct s; [discriminate | simpl in Hn; lia].
  - destruct s as [|c s]; [discriminate|]. simpl in H, Hn.
    destruct (code c =? 34)%Z.
    { injection H as _ <-. simpl. lia. }
    destruct (code c =? 92)%Z.
    + destruct s as [|e s]; [discriminate|]. simpl in Hn.
      repeat match type of H with
             | (if ?b then _ else _) = _ =>
               destruct b; [apply IH in H; simpl in *; lia|]
             end.
      destruct (code e =? 117)%Z; [|discriminate].
      destruct s as [|h1 [|h2 [|h3 [|h4 s]]]]; try discriminate.
      destruct (hex_value h1), (hex_value h2), (hex_value h3), (hex_value h4);
        try discriminate.
      apply IH in H; simpl in *; lia.
    + destruct (code c <? 32)%Z; [discriminate|].
      apply IH in H; simpl in *; lia.
Qed.

Lemma parse_number_length (s r : list ascii) (x : Num.number) :
  parse_number s = Some (x, r) -> (List.length r < List.length s)%nat.
Proof.
  unfold parse_number.
  destruct (match s with
            | [] => (false, s)
            | c :: r0 => if (code c =? 45)%Z then (true, r0) else (false, s)
            end) as [neg s1] eqn:Esign.
  assert (L1 : (List.length s1 <= List.length s)%nat).
  { destruct s as [|c r0]; [injection Esign as _ <-; lia|].
    destruct (code c =? 45)%Z; injection Esign as _ <-; simpl; lia. }
  destruct (span_digits s1) as [int s2] eqn:Eint.
  apply span_digits_length in Eint.
  destruct int as [|d more]; [discriminate|].
  destruct (_ && _); [discriminate|].
  match goal with
  | |- match ?f with _ => _ end = _ -> _ => destruct f as [[fs s3]|] eqn:Efrac; [|discriminate]
  end.
  assert (L3 : (List.length s3 <= List.length s2)%nat).
  { destruct s2 as [|c r0]; [injection Efrac as _ <-; lia|].
    destruct (code c =? 46)%Z.
    - destruct (span_digits r0) as [fs' s3'] eqn:E. apply span_digits_length in E.
      destruct fs'; [discriminate|]. injection Efrac as _ <-. simpl in *. lia.
    - injection Efrac as _ <-. lia. }
  match goal with
  | |- match ?f with _ => _ end = _ -> _ => destruct f as [[e s4]|] eqn:Eexp; [|discriminate]
  end.
  assert (L4 : (List.length s4 <= List.length s3)%nat).
  { destruct s3 as [|c r0]; [injection Eexp as _ <-; lia|].
    destruct (_ || _).
    - destruct (match r0 with
                | [] => (false, r0)
                | sg :: r' =>
                  if (code sg =? 45)%Z then (true, r')
                  else if (code sg =? 43)%Z then (false, r') else (false, r0)
                end) as [eneg r1] eqn:Esg.
      assert (List.length r1 <= List.length r0)%nat.
      { destruct r0 as [|sg r']; [injection Esg as _ <-; lia|].
        destruct (code sg =? 45)%Z; [injection Esg as _ <-; simpl; lia|].
        destruct (code sg =? 43)%Z; injection Esg as _ <-; simpl; lia. }
      destruct (span_digits r1) as [es s4'] eqn:E. apply span_digits_length in E.
      destruct es; [discriminate|]. injection Eexp as _ <-. simpl in *. lia.
    - injection Eexp as _ <-. lia. }
  intros H. injection H as _ <-. simpl in Eint. lia.
Qed.

(** More fuel changes no result. *)
Lemma parse_fuel_S (f : nat) :
  (forall s x, parse_value f s = Some x -> parse_value (S f) s = Some x) /\
  (forall s acc x, parse_elements f s acc = Some x -> parse_elements (S f) s acc = Some x) /\
  (forall s acc x, parse_members f s acc = Some x -> parse_members (S f) s acc = Some x).
Proof.
  induction f as [|f [IHv [IHe IHm]]]; [repeat split; intros; discriminate|].
  repeat split.
  - intros s x H.
    change (value_step (parse_members f) (parse_elements f) s = Some x) in H.
    change (value_step (parse_members (S f)) (parse_elements (S f)) s = Some x).
    unfold value_step in *. cbv zeta in *.
    destruct (skip_ws s) as [|c r]; [discriminate|].
    repeat match type of H with
           | (if ?b then _ else _) = _ => destruct b
           end; try exact H.
    + destruct (skip_ws r) as [|c' r']; [discriminate|].
      destruct (code c' =? 125)%Z; [exact H | now apply IHm].
    + destruct (skip_ws r) as [|c' r']; [discriminate|].
      destruct (code c' =? 93)%Z; [exact H | now apply IHe].
  - intros s acc x H.
    change (elements_step (parse_value f) (parse_elements f) s acc = Some x) in H.
    change (elements_step (parse_value (S f)) (parse_elements (S f)) s acc = Some x).
    unfold elements_step in *.
    destruct (parse_value f s) as [[v r]|] eqn:Ev; [|discriminate].
    rewrite (IHv _ _ Ev).
    destruct (skip_ws r) as [|c r']; [discriminate|].
    destruct (code c =? 44)%Z; [now apply IHe | exact H].
  - intros s acc x H.
    change (members_step (parse_value f) (parse_members f) s acc = Some x) in H.
    change (members_step (parse_value (S f)) (parse_members (S f)) s acc = Some x).
    unfold members_step in *.
    destruct (skip_ws s) as [|q r]; [discriminate|].
    destruct (code q =? 34)%Z; [|discriminate].
    destruct (parse_string r []) as [[k r1]|]; [|discriminate].
    destruct (skip_ws r1) as [|col r2]; [discriminate|].
    destruct (code col =? 58)%Z; [|discriminate].
    destruct (parse_value f r2) as [[v r3]|] eqn:Ev; [|discriminate].
    rewrite (IHv _ _ Ev). cbv zeta in *.
    destruct (skip_ws r3) as [|c r4]; [discriminate|].
    destruct (code c =? 44)%Z; [now apply IHm | exact H].
Qed.

Lemma parse_fuel_le (f f' : nat) :
  (f <= f')%nat ->
  (forall s x, parse_value f s = Some x -> parse_value f' s = Some x) /\
  (forall s acc x, parse_elements f s acc = Some x -> parse_elements f' s acc = Some x) /\
  (forall s acc x, parse_members f s acc = Some x -> parse_members f' s acc = Some x).
Proof.
  induction 1 as [|f' _ [IHv [IHe IHm]]]; [now repeat split|].
  destruct (parse_fuel_S f') as [Sv [Se Sm]].
  repeat split; intros; auto.
Qed.

(** A call reads at least one character and needs no more fuel than the
    number of characters it reads. *)
Lemma parse_fuel_read (f : nat) :
  (forall s v r, parse_value f s = Some (v, r) ->
     (List.length r < List.length s)%nat /\
     parse_value (List.length s - List.length r) s = Some (v, r)) /\
  (forall s acc v r, parse_elements f s acc = Some (v, r) ->
     (List.length r < List.length s)%nat /\
     parse_elements (List.length s - List.length r) s acc = Some (v, r)) /\
  (forall s acc v r, parse_members f s acc = Some (v, r) ->
     (List.length r < List.length s)%nat /\
     parse_members (List.length s - List.length r) s acc = Some (v, r)).
Proof.
  induction f as [|f [IHv [IHe IHm]]]; [repeat split; intros; discriminate|].
  split; [|split].
  - intros s v r H.
    change (value_step (parse_members f) (parse_elements f) s = Some (v, r)) in H.
    assert (Hstep : forall k,
               (forall r0, (List.length r0 < List.length s)%nat ->
                  (parse_members f r0 [] = Some (v, r) ->
                   parse_members k r0 [] = Some (v, r)) /\
                  (parse_elements f r0 [] = Some (v, r) ->
                   parse_elements k r0 [] = Some (v, r))) ->
               value_step (parse_members k) (parse_elements k) s = Some (v, r)).
    { intros k Hk. unfold value_step in *. cbv zeta in *.
      destruct (skip_ws s) as [|c r0] eqn:Es; [discriminate|].
      apply skip_ws_cons in Es.
      repeat match type of H with
             | (if ?b then _ else _) = _ => destruct b
             end; try exact H.
      - destruct (skip_ws r0) as [|c' r']; [discriminate|].
        destruct (code c' =? 125)%Z; [exact H | now apply Hk].
      - destruct (skip_ws r0) as [|c' r']; [discriminate|].
        destruct (code c' =? 93)%Z; [exact H | now apply Hk]. }
    assert (Hlen : (List.length r < List.length s)%nat).
    { unfold value_step in H. cbv zeta in H.
      destruct (skip_ws s) as [|c r0] eqn:Es; [discriminate|].
      apply skip_ws_cons in Es.
      repeat match type of H with
             | (if ?b then _ else _) = _ => destruct b
             end.
      + destruct (skip_ws r0) as [|c' r'] eqn:E0; [discriminate|]. apply skip_ws_cons in E0.
        destruct (code c' =? 125)%Z; [injection H as _ <-; lia|].
        apply IHm in H. lia.
      + destruct (skip_ws r0) as [|c' r'] eqn:E0; [discriminate|]. apply skip_ws_cons in E0.
        destruct (code c' =? 93)%Z; [injection H as _ <-; lia|].
        apply IHe in H. lia.
      + destruct (parse_string r0 []) as [[str r']|] eqn:E0; [|discriminate].
        apply (parse_string_length _ _ _ _ _ (le_n _)) in E0. injection H as _ <-. lia.
      + destruct (strip_prefix _ r0) as [r'|] eqn:E0; [|discriminate].
        apply strip_prefix_length in E0. injection H as _ <-. lia.
      + destruct (strip_prefix _ r0) as [r'|] eqn:E0; [|discriminate].
        apply strip_prefix_length in E0. injection H as _ <-. lia.
      + destruct (strip_prefix _ r0) as [r'|] eqn:E0; [|discriminate].
        apply strip_prefix_length in E0. injection H as _ <-. lia.
      + destruct (parse_number (c :: r0)) as [[x r']|] eqn:E0; [|discriminate].
        apply parse_number_length in E0. injection H as _ <-. simpl in E0. lia. }
    split; [exact Hlen|].
    replace (List.length s - List.length r)%nat
      with (S (List.length s - List.length r - 1)) by lia.
    apply Hstep. intros r0 Hr0. split; intros Hrec.
    + destruct (IHm _ _ _ _ Hrec) as [L Hm].
      refine (proj2 (proj2 (parse_fuel_le _ _ _)) _ _ _ Hm). lia.
    + destruct (IHe _ _ _ _ Hrec) as [L He].
      refine (proj1 (proj2 (parse_fuel_le _ _ _)) _ _ _ He). lia.
  - intros s acc v r H.
    change (elements_step (parse_value f) (parse_elements f) s acc = Some (v, r)) in H.
    unfold elements_step in H.
    destruct (parse_value f s) as [[v1 r1]|] eqn:Ev; [|discriminate].
    destruct (IHv _ _ _ Ev) as [L1 Hv].
    destruct (skip_ws r1) as [|c r'] eqn:E1; [discriminate|].
    pose proof (skip_ws_cons _ _ _ E1) as L2.
    assert (Hlen : (List.length r < List.length r1)%nat).
    { destruct (code c =? 44)%Z; [apply IHe in H; lia|].
      destruct (code c =? 93)%Z; [injection H as _ <-; lia | discriminate]. }
    split; [lia|].
    replace (List.length s - List.length r)%nat
      with (S (List.length s - List.length r - 1)) by lia.
    change (elements_step (parse_value (List.length s - List.length r - 1))
              (parse_elements (List.length s - List.length r - 1)) s acc = Some (v, r)).
    unfold elements_step.
    rewrite (proj1 (parse_fuel_le (List.length s - List.length r1)
                    (List.length s - List.length r - 1) ltac:(lia)) _ _ Hv).
    rewrite E1.
    destruct (code c =? 44)%Z; [|exact H].
    destruct (IHe _ _ _ _ H) as [L3 He].
    refine (proj1 (proj2 (parse_fuel_le _ _ _)) _ _ _ He). lia.
  - intros s acc v r H.
    change (members_step (parse_value f) (parse_members f) s acc = Some (v, r)) in H.
    unfold members_step in H.
    destruct (skip_ws s) as [|q r0] eqn:Es; [discriminate|].
    pose proof (skip_ws_cons _ _ _ Es) as L0.
    destruct (code q =? 34)%Z eqn:Eq; [|discriminate].
    destruct (parse_string r0 []) as [[k r1]|] eqn:Ek; [|discriminate].
    pose proof (parse_string_length _ _ _ _ _ (le_n _) Ek) as L1.
    destruct (skip_ws r1) as [|col r2] eqn:E1; [discriminate|].
    pose proof (skip_ws_cons _ _ _ E1) as L2.
    destruct (code col =? 58)%Z eqn:Ecol; [|discriminate].
    destruct (parse_value f r2) as [[v1 r3]|] eqn:Ev; [|discriminate].
    destruct (IHv _ _ _ Ev) as [L3 Hv]. cbv zeta in H.
    destruct (skip_ws r3) as [|c r4] eqn:E3; [discriminate|].
    pose proof (skip_ws_cons _ _ _ E3) as L4.
    assert (Hlen : (List.length r < List.length r3)%nat).
    { destruct (code c =? 44)%Z; [apply IHm in H; lia|].
      destruct (code c =? 125)%Z; [injection H as _ <-; lia | discriminate]. }
    split; [lia|].
    replace (List.length s - List.length r)%nat
      with (S (List.length s - List.length r - 1)) by lia.
    change (members_step (parse_value (List.length s - List.length r - 1))
              (parse_members (List.length s - List.length r - 1)) s acc = Some (v, r)).
    unfold members_step. rewrite Es, Eq, Ek, E1, Ecol.
    rewrite (proj1 (parse_fuel_le (List.length r2 - List.length r3)
                    (List.length s - List.length r - 1) ltac:(lia)) _ _ Hv).
    cbv zeta. rewrite E3.
    destruct (code c =? 44)%Z; [|exact H].
    destruct (IHm _ _ _ _ H) as [L5 Hm].
    refine (proj2 (proj2 (parse_fuel_le _ _ _)) _ _ _ Hm). lia.
Qed.

(** The fuel that [JSON_parse] gives is as good as any larger fuel. *)
Lemma JSON_parse_fuel (text : list ascii) (f : nat) :
  (S (List.length text) <= f)%nat ->
  parse_value f text = parse_value (S (List.length text)) text.
Proof.
  intros Hf.
  destruct (parse_value f text) as [[v r]|] eqn:E.
  - destruct (proj1 (parse_fuel_read f) _ _ _ E) as [L H].
    symmetry. refine (proj1 (parse_fuel_le _ _ _) _ _ H). lia.
  - destruct (parse_value (S (List.length text)) text) as [x|] eqn:E'; [|reflexivity].
    rewrite (proj1 (parse_fuel_le _ _ Hf) _ _ E') in E. discriminate.
Qed.

(** ** The monad *)

Lemma bind_Ok {A B : Type} (m : M A) (k : A -> M B) (s s' : state) (a : A) :
  m s = (Ok a, s') -> bind m k s = k a s'.
Proof. intros H. unfold bind. now rewrite H. Qed.

Lemma bind_Throw {A B : Type} (m : M A) (k : A -> M B) (s s' : state) (e : error) :
  m s = (Throw e, s') -> bind m k s = (Throw e, s').
Proof. intros H. unfold bind. now rewrite H. Qed.

Lemma bind_assoc {A B C : Type} (m : M A) (f : A -> M B) (g : B -> M C) (s : state) :
  bind (bind m f) g s = bind m (fun x => bind (f x) g) s.
Proof. unfold bind. now destruct (m s) as [[a|e] s']. Qed.

Lemma requests_app (l1 l2 : list event) :
  requests (l1 ++ l2) = (requests l1 ++ requests l2)%list.
Proof.
  induction l1 as [|e l1 IH]; simpl; [reflexivity|].
  destruct e; simpl; now rewrite ?IH.
Qed.

Lemma read_Some (w : World) (path content : string) (s : state) :
  files w path = Some content ->
  read w path s = (Ok content, mkState (heap s) (log s ++ [ERead path])).
Proof. intros H. unfold read, bind, emit. simpl. now rewrite H. Qed.

Lemma JSON_parse_text_None (text : string) (s : state) :
  JSON_parse text = None -> JSON_parse_text text s = (Throw SyntaxError, s).
Proof. intros H. unfold JSON_parse_text. now rewrite H. Qed.

Lemma JSON_parse_text_Some (text : string) (v : value) (s : state) :
  JSON_parse text = Some v ->
  JSON_parse_text text s
  = (Ok (mkPointer (List.length (heap s)) []), mkState (heap s ++ [v]) (log s)).
Proof. intros H. unfold JSON_parse_text. now rewrite H. Qed.

Lemma resolve_at_key (h : list value) (x : pointer) (k : key) :
  resolve h (at_key x k) = get (resolve h x) k.
Proof. unfold resolve, at_key. simpl. now rewrite fold_left_app. Qed.

Lemma resolve_new (h : list value) (v : value) :
  resolve (h ++ [v]) (mkPointer (List.length h) []) = v.
Proof. unfold resolve. simpl. now rewrite nth_middle. Qed.

Lemma member_eq (x : pointer) (k : key) (s : state) :
  member x k s
  = if is_nullish (resolve (heap s) x) then (Throw TypeError, s) else (Ok (at_key x k), s).
Proof. reflexivity. Qed.

(** ** Malformed input *)

(** C4. Whatever the script, when the input file does not hold valid JSON,
    [execute] throws the SyntaxError of [JSON.parse] and has issued no HTTP
    request by then. *)
Theorem malformed_input_never_reaches_fetch :
  forall (sc : script) (w : World) (context : Context) (s : state) (inputData : string),
    files w (inputDataPath context) = Some inputData ->
    JSON_parse inputData = None ->
    fst (execute_of sc w context s) = Throw SyntaxError /\
    silent (execute_of sc w context) s.
Proof.
  intros sc w context s inputData Hfile Hparse.
  assert (Hlog : requests (log s ++ [ERead (inputDataPath context)]) = requests (log s)).
  { rewrite requests_app. simpl. now rewrite app_nil_r. }
  unfold silent.
  destruct sc; simpl.
  - unfold Index.execute, Index.readInputFile, Index.uploadDocument.
    rewrite (bind_Ok _ _ _ _ _ (read_Some _ _ _ s Hfile)).
    rewrite (bind_Throw _ _ _ _ _ (bind_Throw _ _ _ _ _ (JSON_parse_text_None _ _ Hparse))).
    simpl. now split.
  - unfold FirstClient.execute, FirstClient.readInputFile.
    rewrite (bind_Throw _ _ _ _ _
               (eq_trans (bind_Ok _ _ _ _ _ (read_Some _ _ _ s Hfile))
                         (JSON_parse_text_None _ _ Hparse))).
    simpl. now split.
  - unfold WithDocumentId.execute, WithDocumentId.readInputFile.
    rewrite (bind_Throw _ _ _ _ _
               (eq_trans (bind_Ok _ _ _ _ _ (read_Some _ _ _ s Hfile))
                         (JSON_parse_text_None _ _ Hparse))).
    simpl. now split.
Qed.

Lemma malformed_input_witness :
  let w := world_of malformed_input reply_ok in
  files w (inputDataPath sample_context) = Some malformed_input /\
  JSON_parse malformed_input = None /\
  fst (execute_of with_document_id w sample_context initial) = Throw SyntaxError /\
  silent (execute_of with_document_id w sample_context) initial.
Proof.
  cbv zeta.
  assert (Hfile : files (world_of malformed_input reply_ok) (inputDataPath sample_context)
                  = Some malformed_input) by reflexivity.
  assert (Hparse : JSON_parse malformed_input = None) by (vm_compute; reflexivity).
  exact (conj Hfile (conj Hparse
           (malformed_input_never_reaches_fetch with_document_id
              (world_of malformed_input reply_ok) sample_context initial malformed_input
              Hfile Hparse))).
Defined.

Lemma readInputFile_Some (w : World) (context : Context) (s : state) (inputData : string) (v : value) :
  files w (inputDataPath context) = Some inputData ->
  JSON_parse inputData = Some v ->
  WithDocumentId.readInputFile w context s
  = (Ok (mkPointer (List.length (heap s)) []),
     mkState (heap s ++ [v]) (log s ++ [ERead (inputDataPath context)])).
Proof.
  intros Hfile Hparse. unfold WithDocumentId.readInputFile.
  rewrite (bind_Ok _ _ _ _ _ (read_Some _ _ _ s Hfile)).
  now rewrite (JSON_parse_text_Some _ _ _ Hparse).
Qed.

Lemma FirstClient_readInputFile_eq :
  FirstClient.readInputFile = WithDocumentId.readInputFile.
Proof. reflexivity. Qed.

Lemma get_nullish (v : value) (k : key) : is_nullish v = true -> get v k = VUndefined.
Proof. now destruct v. Qed.

Lemma silent_after_read (s : state) (path : string) :
  requests (log s ++ [ERead path]) = requests (log s).
Proof. rewrite requests_app. simpl. now rewrite app_nil_r. Qed.

(** ** No client *)

(** C10. When the input parses to an object whose [Clients] list is empty,
    [input.Clients[0]] is [undefined]; both scripts that take the first
    client then throw a TypeError on a member access ([.Reservation] in
    [execute], [.guestClientId] in [uploadDocument]) and have issued no HTTP
    request by then. *)
Theorem empty_clients_throw_before_fetch :
  forall (w : World) (context : Context) (s : state) (inputData : string) (input : value),
    files w (inputDataPath context) = Some inputData ->
    JSON_parse inputData = Some input ->
    get input "Clients" = VArr [] ->
    (fst (WithDocumentId.execute w context s) = Throw TypeError /\
     silent (WithDocumentId.execute w context) s) /\
    (fst (FirstClient.execute w context s) = Throw TypeError /\
     silent (FirstClient.execute w context) s).
Proof.
  intros w context s inputData input Hfile Hparse Hclients.
  assert (Hinput : is_nullish input = false).
  { destruct (is_nullish input) eqn:E; [|reflexivity].
    rewrite (get_nullish _ _ E) in Hclients. discriminate. }
  pose proof (readInputFile_Some w context s _ _ Hfile Hparse) as Hread.
  unfold silent.
  split.
  - unfold WithDocumentId.execute.
    rewrite (bind_Ok _ _ _ _ _ Hread).
    unfold bind. rewrite !member_eq. simpl heap. rewrite resolve_new, Hinput.
    rewrite !member_eq. simpl heap. rewrite resolve_at_key, resolve_new, Hclients. simpl is_nullish.
    cbv iota.
    rewrite !member_eq. simpl heap. rewrite !resolve_at_key, resolve_new, Hclients.
    simpl. split; [reflexivity | apply silent_after_read].
  - unfold FirstClient.execute. rewrite FirstClient_readInputFile_eq.
    rewrite (bind_Ok _ _ _ _ _ Hread).
    unfold FirstClient.uploadDocument, FirstClient.uploadDocument_body, prop.
    unfold bind. rewrite !member_eq. simpl heap. rewrite resolve_new, Hinput.
    rewrite !member_eq. simpl heap. rewrite resolve_at_key, resolve_new, Hclients. simpl is_nullish.
    cbv iota.
    rewrite !member_eq. simpl heap. rewrite !resolve_at_key, resolve_new, Hclients.
    simpl. split; [reflexivity | apply silent_after_read].
Qed.

Lemma empty_clients_witness :
  let w := world_of no_clients_input reply_ok in
  let input := VObj [("Clients", VArr [])] in
  files w (inputDataPath sample_context) = Some no_clients_input /\
  JSON_parse no_clients_input = Some input /\
  get input "Clients" = VArr [] /\
  (fst (WithDocumentId.execute w sample_context initial) = Throw TypeError /\
   silent (WithDocumentId.execute w sample_context) initial) /\
  (fst (FirstClient.execute w sample_context initial) = Throw TypeError /\
   silent (FirstClient.execute w sample_context) initial).
Proof.
  cbv zeta.
  assert (Hfile : files (world_of no_clients_input reply_ok) (inputDataPath sample_context)
                  = Some no_clients_input) by reflexivity.
  assert (Hparse : JSON_parse no_clients_input = Some (VObj [("Clients", VArr [])]))
    by (vm_compute; reflexivity).
  assert (Hclients : get (VObj [("Clients", VArr [])]) "Clients" = VArr []) by reflexivity.
  exact (conj Hfile (conj Hparse (conj Hclients
           (empty_clients_throw_before_fetch (world_of no_clients_input reply_ok)
              sample_context initial no_clients_input _ Hfile Hparse Hclients)))).
Defined.

(** ** Framing *)

Section Framing.

Context (R : state -> state -> Prop) `{Frame R}.

Lemma steps_ret {A : Type} (a : A) : steps R (ret a).
Proof. intros s. apply frame_refl. Qed.

Lemma steps_throw {A : Type} (e : error) : steps R (@throw A e).
Proof. intros s. apply frame_refl. Qed.

Lemma steps_lift {A : Type} (r : result A) : steps R (lift r).
Proof. intros s. apply frame_refl. Qed.

Lemma steps_bind {A B : Type} (m : M A) (k : A -> M B) :
  steps R m -> (forall a, steps R (k a)) -> steps R (bind m k).
Proof.
  intros Hm Hk s. unfold bind.
  pose proof (Hm s) as H1.
  destruct (m s) as [[a|e] s1]; simpl in *.
  - exact (frame_trans _ _ _ H1 (Hk a s1)).
  - exact H1.
Qed.

Lemma steps_emit (e : event) : is_request e = false -> steps R (emit e).
Proof. intros He s. now apply frame_emit. Qed.

Lemma steps_alloc (v : value) : steps R (alloc v).
Proof. intros s. apply frame_alloc. Qed.

Lemma steps_load (p : pointer) : steps R (load p).
Proof. intros s. apply frame_refl. Qed.

Lemma steps_member (x : pointer) (k : key) : steps R (member x k).
Proof.
  intros s. rewrite member_eq.
  destruct (is_nullish _); apply frame_refl.
Qed.

Lemma steps_not_awaited {A : Type} (m : M A) : steps R m -> steps R (not_awaited m).
Proof. intros Hm s. exact (Hm s). Qed.

Lemma steps_forEach_from (xs : pointer) (callback : pointer -> M value) :
  (forall p, steps R (callback p)) ->
  forall n i, steps R (forEach_from xs i n callback).
Proof.
  intros Hc n. induction n as [|n IH]; intros i; simpl.
  - apply steps_ret.
  - apply steps_bind; [apply Hc | intros _; apply IH].
Qed.

Lemma steps_forEach (xs : pointer) (callback : pointer -> M value) :
  (forall p, steps R (callback p)) -> steps R (forEach xs callback).
Proof.
  intros Hc s. unfold forEach.
  destruct (resolve (heap s) xs); try apply frame_refl.
  apply steps_forEach_from, Hc.
Qed.

End Framing.

Create HintDb frame.
#[local] Hint Resolve steps_ret steps_throw steps_lift steps_alloc steps_load
  steps_member : frame.
#[local] Hint Extern 1 (steps _ (emit _)) => (apply steps_emit; [exact _ | reflexivity]) : frame.
#[local] Hint Extern 0 (Frame _) => exact _ : frame.

(** Goes through a computation statement by statement. *)
Ltac frame :=
  repeat first
    [ solve [auto with frame]
    | match goal with
      | |- steps _ (bind _ _) => apply steps_bind; [exact _ | | intros ?]
      | |- steps _ (not_awaited _) => apply steps_not_awaited
      | |- steps _ (forEach _ _) => apply steps_forEach; [exact _ | intros ?]
      | |- steps _ (match ?x with _ => _ end) => destruct x
      | |- steps _ (if ?b then _ else _) => destruct b
      | |- steps _ _ => progress cbv zeta
      end ].

Section Framed.

Context (R : state -> state -> Prop) `{Frame R}.

Lemma steps_prop (x : pointer) (k : key) : steps R (prop x k).
Proof. unfold prop. frame. Qed.

Lemma steps_read (w : World) (path : string) : steps R (read w path).
Proof. unfold read. frame. Qed.

Lemma steps_readAsBase64 (w : World) (path : string) : steps R (readAsBase64 w path).
Proof. unfold readAsBase64. frame. Qed.

Lemma steps_console_log (message : string) : steps R (console_log message).
Proof. unfold console_log. frame. Qed.

Lemma steps_JSON_parse_text (text : string) : steps R (JSON_parse_text text).
Proof. unfold JSON_parse_text. frame. Qed.

Lemma steps_JSON_parse_any (x : pointer) : steps R (JSON_parse_any x).
Proof. unfold JSON_parse_any, JSON_parse_text. frame. Qed.

Lemma steps_Response_json (r : Response) : steps R (Response_json r).
Proof. apply steps_JSON_parse_text. Qed.

End Framed.

#[local] Hint Resolve steps_prop steps_read steps_readAsBase64 steps_console_log
  steps_JSON_parse_text steps_JSON_parse_any steps_Response_json : frame.

Section Scripts.

Context (R : state -> state -> Prop) `{Frame R}.

Lemma steps_readInputFile (w : World) (context : Context) :
  steps R (WithDocumentId.readInputFile w context).
Proof. unfold WithDocumentId.readInputFile. frame. Qed.

Lemma steps_body (w : World) (context : Context) (data : pointer) :
  steps R (WithDocumentId.uploadDocument_body w context data).
Proof. unfold WithDocumentId.uploadDocument_body, WithDocumentId.readDocumentAsBase64. frame. Qed.

Lemma steps_Index_body (w : World) (context : Context) (jsonData : pointer) :
  steps R (Index.uploadDocument_body w context jsonData).
Proof. unfold Index.uploadDocument_body, Index.readDocumentAsBase64. cbv zeta. frame. Qed.

Lemma steps_getDocumentId (response : pointer) :
  steps R (WithDocumentId.getDocumentId response).
Proof. unfold WithDocumentId.getDocumentId. frame. Qed.

Lemma steps_after_fetch (response : Response) : steps R (after_fetch response).
Proof. unfold after_fetch. frame. Qed.

Lemma steps_after_fetch_unit (response : Response) : steps R (after_fetch_unit response).
Proof. unfold after_fetch_unit. frame. Qed.

End Scripts.

#[local] Hint Resolve steps_readInputFile steps_body steps_Index_body steps_getDocumentId
  steps_after_fetch steps_after_fetch_unit : frame.

(** ** The heap only grows *)

#[local] Instance heap_extends_Frame : Frame heap_extends.
Proof.
  split.
  - intros s. exists []. now rewrite app_nil_r.
  - intros s1 s2 s3 [m1 H1] [m2 H2]. exists (m1 ++ m2)%list.
    now rewrite H2, H1, app_assoc.
  - intros s v. now exists [v].
  - intros s e _. exists []. simpl. now rewrite app_nil_r.
Qed.

#[local] Instance same_requests_Frame : Frame same_requests.
Proof.
  split; unfold same_requests.
  - reflexivity.
  - intros s1 s2 s3 H1 H2. now rewrite H2.
  - reflexivity.
  - intros s e He. simpl. rewrite requests_app.
    destruct e; try discriminate; simpl; now rewrite app_nil_r.
Qed.

Lemma heap_grows_fetch (w : World) (r : request) : heap_grows (fetch w r).
Proof.
  intros s. unfold fetch, bind, emit. simpl.
  destruct (endpoint w r); exists []; simpl; now rewrite app_nil_r.
Qed.

#[local] Hint Resolve heap_grows_fetch : frame.

Lemma heap_grows_body (w : World) (context : Context) (data : pointer) :
  heap_grows (WithDocumentId.uploadDocument_body w context data).
Proof. apply steps_body; exact _. Qed.

Lemma heap_grows_uploadDocument (w : World) (context : Context) (data : pointer) :
  heap_grows (WithDocumentId.uploadDocument w context data).
Proof.
  unfold WithDocumentId.uploadDocument. frame.
Qed.

Lemma heap_grows_getDocumentId (response : pointer) :
  heap_grows (WithDocumentId.getDocumentId response).
Proof. apply steps_getDocumentId; exact _. Qed.

Lemma heap_grows_FirstClient_uploadDocument (w : World) (context : Context) (data : pointer) :
  heap_grows (FirstClient.uploadDocument w context data).
Proof.
  unfold FirstClient.uploadDocument. frame.
Qed.

Lemma heap_grows_Index_uploadDocument (w : World) (context : Context) (data : string) :
  heap_grows (Index.uploadDocument w context data).
Proof.
  unfold Index.uploadDocument. frame.
Qed.

Lemma resolve_kept (h more : list value) (v : value) (path : list key) :
  resolve ((h ++ [v]) ++ more) (mkPointer (List.length h) path) = fold_left get path v.
Proof.
  unfold resolve. simpl.
  rewrite app_nth1 by (rewrite length_app; simpl; lia).
  now rewrite nth_middle.
Qed.

#[local] Hint Resolve heap_grows_uploadDocument heap_grows_getDocumentId
  heap_grows_FirstClient_uploadDocument heap_grows_Index_uploadDocument : frame.

(** What follows the parse of the input only adds to the heap, so the
    parsed object is kept. *)
Ltac kept :=
  match goal with
  | |- context [snd (?k ?s1)] =>
    let Hk := fresh "Hk" in
    let more := fresh "more" in
    let Hmore := fresh "Hmore" in
    assert (Hk : heap_grows k) by frame;
    destruct (Hk s1) as [more Hmore];
    rewrite Hmore; simpl; apply resolve_kept
  end.

(** ** The input record is only read *)

(** C8. The object that [JSON.parse] makes of the input file is the first
    object a run allocates.  At the end of [execute], whichever script runs
    and however it ends, every path into that object leads to what was
    parsed: metadata construction, body assembly, upload and the search for
    the document id only add objects to the heap
    ([heap_grows_body], [heap_grows_uploadDocument],
    [heap_grows_getDocumentId]). *)
Theorem input_record_never_mutated :
  forall (sc : script) (w : World) (context : Context) (s : state)
         (inputData : string) (record : value) (path : list key),
    files w (inputDataPath context) = Some inputData ->
    JSON_parse inputData = Some record ->
    resolve (heap (snd (execute_of sc w context s))) (mkPointer (List.length (heap s)) path)
    = fold_left get path record.
Proof.
  intros sc w context s inputData record path Hfile Hparse.
  pose proof (readInputFile_Some w context s _ _ Hfile Hparse) as Hread.
  destruct sc; simpl.
  - unfold Index.execute, Index.readInputFile.
    rewrite (bind_Ok _ _ _ _ _ (read_Some _ _ _ s Hfile)).
    unfold Index.uploadDocument.
    rewrite bind_assoc, (bind_Ok _ _ _ _ _ (JSON_parse_text_Some _ _ _ Hparse)).
    kept.
  - unfold FirstClient.execute. rewrite FirstClient_readInputFile_eq.
    rewrite (bind_Ok _ _ _ _ _ Hread).
    kept.
  - unfold WithDocumentId.execute.
    rewrite (bind_Ok _ _ _ _ _ Hread).
    kept.
Qed.

Lemma input_record_never_mutated_witness :
  let w := world_of sample_input reply_not_found in
  let record :=
    VObj [("Clients", VArr [VObj [("ClientID", VStr "c-9");
            ("Reservation", WithDocumentId.Reservation_json sample_reservation)]])] in
  files w (inputDataPath sample_context) = Some sample_input /\
  JSON_parse sample_input = Some record /\
  resolve (heap (snd (execute_of with_document_id w sample_context initial)))
          (mkPointer 0 [Key "Clients"; Idx 0; Key "Reservation"; Key "guests"])
  = VInt 2.
Proof.
  cbv zeta.
  assert (Hfile : files (world_of sample_input reply_not_found) (inputDataPath sample_context)
                  = Some sample_input) by reflexivity.
  assert (Hparse : JSON_parse sample_input
                   = Some (VObj [("Clients", VArr [VObj [("ClientID", VStr "c-9");
                        ("Reservation", WithDocumentId.Reservation_json sample_reservation)]])]))
    by (vm_compute; reflexivity).
  exact (conj Hfile (conj Hparse
           (input_record_never_mutated with_document_id
              (world_of sample_input reply_not_found) sample_context initial sample_input _
              [Key "Clients"; Idx 0; Key "Reservation"; Key "guests"] Hfile Hparse))).
Defined.

(** ** The request body *)

Lemma uploadDocument_body_eq (w : World) (context : Context) (data : pointer) (s : state) :
  WithDocumentId.uploadDocument_body w context data s
  = let v := resolve (heap s) data in
    let s' := mkState (heap s) (log s ++ [EReadAsBase64 (documentPath context)]) in
    if is_nullish v then (Throw TypeError, s)
    else if is_nullish (get v "hotel") then (Throw TypeError, s)
    else match files w (documentPath context) with
         | Some document => (Ok (body_of_record context v (VStr (base64 document))), s')
         | None => (Throw (ReadError (documentPath context)), s')
         end.
Proof.
  unfold WithDocumentId.uploadDocument_body, WithDocumentId.readDocumentAsBase64,
    readAsBase64, prop.
  cbv zeta.
  destruct (is_nullish (resolve (heap s) data)) eqn:Hdata.
  { unfold bind. now rewrite member_eq, Hdata. }
  destruct (is_nullish (get (resolve (heap s) data) "hotel")) eqn:Hhotel.
  { unfold bind, load.
    repeat (rewrite !member_eq, ?Hdata, ?resolve_at_key, ?Hhotel; cbv iota beta).
    reflexivity. }
  unfold bind, load, emit, ret, throw.
  rewrite !member_eq, Hdata. cbv iota beta.
  repeat (rewrite !member_eq, ?Hdata, ?resolve_at_key, ?Hhotel; cbv iota beta).
  rewrite ?resolve_at_key.
  now destruct (files w (documentPath context)).
Qed.

Lemma FirstClient_uploadDocument_body_eq :
  FirstClient.uploadDocument_body = WithDocumentId.uploadDocument_body.
Proof. reflexivity. Qed.

Lemma Index_uploadDocument_body_eq (w : World) (context : Context) (jsonData : pointer)
      (s : state) :
  Index.uploadDocument_body w context jsonData s
  = let v := resolve (heap s) jsonData in
    if is_nullish v then (Throw TypeError, s)
    else (Ok (body_of_flat_record context v VPromise),
          mkState (heap s) (log s ++ [EReadAsBase64 (documentPath context)])).
Proof.
  unfold Index.uploadDocument_body, Index.readDocumentAsBase64, readAsBase64, prop,
    not_awaited.
  cbv zeta.
  destruct (is_nullish (resolve (heap s) jsonData)) eqn:Hdata.
  { unfold bind. now rewrite member_eq, Hdata. }
  unfold bind, load, emit, ret, throw.
  repeat (rewrite !member_eq, ?Hdata, ?resolve_at_key; cbv iota beta).
  rewrite ?resolve_at_key.
  now destruct (files w (documentPath context)).
Qed.

Lemma reservation_text_parses :
  JSON_parse reservation_text = Some (WithDocumentId.Reservation_json sample_reservation).
Proof. vm_compute. reflexivity. Qed.

(** For every reservation record, the body that [uploadDocument] builds in
    the script that returns the document id has a metadata list of exactly
    seven entries, in the order type, hotelName, checkIn, checkOut, guests,
    points, reservationNumber; the first four are tagged Text and the last
    three Number, all are read-only, and the values are the hotel's name, the
    two dates, the guest count, the points and the confirmation number of
    the record. *)
Lemma Reservation_metadata :
  forall (w : World) (context : Context) (data : pointer) (s : state)
         (r : WithDocumentId.Reservation) (document : string),
    resolve (heap s) data = WithDocumentId.Reservation_json r ->
    files w (documentPath context) = Some document ->
    exists body,
      fst (WithDocumentId.uploadDocument_body w context data s) = Ok body /\
      metadata_of body =
      VArr [VObj [("name", VStr "type"); ("type", VStr "Text");
                  ("value", VStr "reward_activity"); ("isReadOnly", VBool true)];
            VObj [("name", VStr "hotelName"); ("type", VStr "Text");
                  ("value", VStr (WithDocumentId.Hotel_name (WithDocumentId.hotel r)));
                  ("isReadOnly", VBool true)];
            VObj [("name", VStr "checkIn"); ("type", VStr "Text");
                  ("value", VStr (WithDocumentId.checkInDate r)); ("isReadOnly", VBool true)];
            VObj [("name", VStr "checkOut"); ("type", VStr "Text");
                  ("value", VStr (WithDocumentId.checkOutDate r)); ("isReadOnly", VBool true)];
            VObj [("name", VStr "guests"); ("type", VStr "Number");
                  ("value", VNum (WithDocumentId.guests r)); ("isReadOnly", VBool true)];
            VObj [("name", VStr "points"); ("type", VStr "Number");
                  ("value", VNum (WithDocumentId.points r)); ("isReadOnly", VBool true)];
            VObj [("name", VStr "reservationNumber"); ("type", VStr "Number");
                  ("value", VNum (WithDocumentId.confirmationNumber r));
                  ("isReadOnly", VBool true)]].
Proof.
  intros w context data s r document Hdata Hfile.
  rewrite uploadDocument_body_eq. cbv zeta. rewrite Hdata, Hfile.
  eexists. split; reflexivity.
Qed.

Example Reservation_metadata_sample :
  exists body,
    fst (WithDocumentId.uploadDocument_body (world_of sample_input reply_ok) sample_context
           (mkPointer 0 []) (mkState [WithDocumentId.Reservation_json sample_reservation] []))
    = Ok body /\
    metadata_of body =
    VArr [metadata_entry "type" "Text" (VStr "reward_activity");
          metadata_entry "hotelName" "Text" (VStr "Grand Hotel");
          metadata_entry "checkIn" "Text" (VStr "2023-05-01");
          metadata_entry "checkOut" "Text" (VStr "2023-05-03");
          metadata_entry "guests" "Number" (VInt 2);
          metadata_entry "points" "Number" (VInt 150);
          metadata_entry "reservationNumber" "Number" (VInt 1234)].
Proof.
  apply (Reservation_metadata (world_of sample_input reply_ok) sample_context (mkPointer 0 [])
           (mkState [WithDocumentId.Reservation_json sample_reservation] [])
           sample_reservation sample_document);
    reflexivity.
Qed.

(** The same for the client record of [FirstClient]. *)
Lemma Client_metadata :
  forall (w : World) (context : Context) (data : pointer) (s : state)
         (c : FirstClient.Client) (document : string),
    resolve (heap s) data = FirstClient.Client_json c ->
    files w (documentPath context) = Some document ->
    exists body,
      fst (FirstClient.uploadDocument_body w context data s) = Ok body /\
      metadata_of body =
      metadata_list (VStr (FirstClient.Hotel_name (FirstClient.hotel c)))
                    (VStr (FirstClient.checkInDate c)) (VStr (FirstClient.checkOutDate c))
                    (VNum (FirstClient.guests c)) (VNum (FirstClient.points c))
                    (VNum (FirstClient.confirmationNumber c)).
Proof.
  intros w context data s c document Hdata Hfile.
  rewrite FirstClient_uploadDocument_body_eq, uploadDocument_body_eq.
  cbv zeta. rewrite Hdata, Hfile.
  eexists. split; reflexivity.
Qed.

(** src/index.ts builds the same seven entries from the flat record it
    parses: the hotel name is its [hotelName], the reservation number its
    [reservationNumber]. *)
Lemma flat_record_metadata :
  forall (w : World) (context : Context) (jsonData : pointer) (s : state) (body : value),
    fst (Index.uploadDocument_body w context jsonData s) = Ok body ->
    let v := resolve (heap s) jsonData in
    metadata_of body =
    metadata_list (get v "hotelName") (get v "checkInDate") (get v "checkOutDate")
                  (get v "guests") (get v "points") (get v "reservationNumber").
Proof.
  intros w context jsonData s body. rewrite Index_uploadDocument_body_eq. cbv zeta.
  destruct (is_nullish _); simpl; [discriminate|].
  intros H. injection H as <-. reflexivity.
Qed.

(** The metadata list as each script builds it, read off the code: seven
    entries, in the order type, hotelName, checkIn, checkOut, guests,
    points, reservationNumber; the first four tagged Text, the last three
    Number, all read-only.  The two scripts that take the first client read
    [hotel.name], [checkInDate], [checkOutDate], [guests], [points] and
    [confirmationNumber]; src/index.ts reads the flat [hotelName] and, for
    the last entry, a field [reservationNumber] that no record has. *)
Lemma metadata_schema :
  forall (sc : script) (w : World) (context : Context) (data : pointer) (s : state)
         (body : value),
    fst (uploadDocument_body_of sc w context data s) = Ok body ->
    let v := resolve (heap s) data in
    let entry name type value :=
      VObj [("name", VStr name); ("type", VStr type); ("value", value);
            ("isReadOnly", VBool true)] in
    metadata_of body =
    VArr [entry "type" "Text" (VStr "reward_activity");
          entry "hotelName" "Text"
            (match sc with index_ts => get v "hotelName" | _ => get (get v "hotel") "name" end);
          entry "checkIn" "Text" (get v "checkInDate");
          entry "checkOut" "Text" (get v "checkOutDate");
          entry "guests" "Number" (get v "guests");
          entry "points" "Number" (get v "points");
          entry "reservationNumber" "Number"
            (match sc with
             | index_ts => get v "reservationNumber"
             | _ => get v "confirmationNumber"
             end)].
Proof.
  intros sc w context data s body. cbv zeta.
  destruct sc; simpl uploadDocument_body_of;
    rewrite ?FirstClient_uploadDocument_body_eq,
            ?Index_uploadDocument_body_eq, ?uploadDocument_body_eq; cbv zeta.
  - destruct (is_nullish _); simpl; [discriminate|].
    intros H. injection H as <-. reflexivity.
  - destruct (is_nullish _); [discriminate|].
    destruct (is_nullish _); [discriminate|].
    destruct (files w (documentPath context)); simpl; [|discriminate].
    intros H. injection H as <-. reflexivity.
  - destruct (is_nullish _); [discriminate|].
    destruct (is_nullish _); [discriminate|].
    destruct (files w (documentPath context)); simpl; [|discriminate].
    intros H. injection H as <-. reflexivity.
Qed.

Lemma metadata_schema_witness :
  let body := body_of_record sample_context
                (WithDocumentId.Reservation_json sample_reservation)
                (VStr (base64 sample_document)) in
  fst (uploadDocument_body_of with_document_id sample_world sample_context
         (reservation_at 0) first_call) = Ok body /\
  metadata_of body
  = VArr [metadata_entry "type" "Text" (VStr "reward_activity");
          metadata_entry "hotelName" "Text" (VStr "Grand Hotel");
          metadata_entry "checkIn" "Text" (VStr "2023-05-01");
          metadata_entry "checkOut" "Text" (VStr "2023-05-03");
          metadata_entry "guests" "Number" (VInt 2);
          metadata_entry "points" "Number" (VInt 150);
          metadata_entry "reservationNumber" "Number" (VInt 1234)].
Proof.
  cbv zeta.
  assert (Hbody : fst (uploadDocument_body_of with_document_id sample_world sample_context
                         (reservation_at 0) first_call)
                  = Ok (body_of_record sample_context
                          (WithDocumentId.Reservation_json sample_reservation)
                          (VStr (base64 sample_document))))
    by (vm_compute; reflexivity).
  split; [exact Hbody|].
  refine (eq_trans (metadata_schema with_document_id sample_world sample_context
                      (reservation_at 0) first_call _ Hbody) _).
  vm_compute. reflexivity.
Defined.

(** C5, on the code. src/index.ts and the example record of the
    specification, whose confirmation number is 1234: the body built has
    the seven entries in their order and with their tags, and the first six
    carry the values of the record, but the entry reservationNumber gets no
    value, not 1234: the script reads the record's [reservationNumber],
    where the two other scripts read [confirmationNumber].  In the request
    that [execute] issues, the entry is written without a value. *)
Theorem index_ignores_confirmationNumber :
  let w := world_of sample_flat_input reply_ok in
  let s := mkState [sample_flat_record] [] in
  let run := Index.execute w sample_context initial in
  JSON_parse sample_flat_input = Some sample_flat_record /\
  get sample_flat_record "confirmationNumber" = VInt 1234 /\
  (exists body,
     fst (Index.uploadDocument_body w sample_context (mkPointer 0 []) s) = Ok body /\
     metadata_of body
     = VArr [metadata_entry "type" "Text" (VStr "reward_activity");
             metadata_entry "hotelName" "Text" (VStr "Grand Hotel");
             metadata_entry "checkIn" "Text" (VStr "2023-05-01");
             metadata_entry "checkOut" "Text" (VStr "2023-05-03");
             metadata_entry "guests" "Number" (VInt 2);
             metadata_entry "points" "Number" (VInt 150);
             metadata_entry "reservationNumber" "Number" VUndefined] /\
     get (metadata_of body) (Idx 6)
     <> metadata_entry "reservationNumber" "Number" (VInt 1234)) /\
  exists req text sent,
    requests (log (snd run)) = [req] /\
    body req = Some text /\
    JSON_parse text = Some sent /\
    get (get (metadata_of sent) (Idx 5)) "value" = VInt 150 /\
    get (metadata_of sent) (Idx 6)
    = VObj [("name", VStr "reservationNumber"); ("type", VStr "Number");
            ("isReadOnly", VBool true)].
Proof.
  cbv zeta.
  split; [vm_compute; reflexivity|].
  split; [reflexivity|].
  split.
  - eexists. split; [reflexivity|]. split; [reflexivity | discriminate].
  - do 3 eexists.
    split; [vm_compute; reflexivity|].
    split; [reflexivity|].
    split; [vm_compute; reflexivity|].
    split; reflexivity.
Qed.

Lemma sample_flat_input_parses : JSON_parse sample_flat_input = Some sample_flat_record.
Proof. vm_compute. reflexivity. Qed.

(** C7. Whatever the script, building the request body twice for the same
    record and the same document gives the same result, whatever happened
    before either run: the body, and with it the metadata list in its
    order, with its tags and its values, depends on nothing else in the
    state. *)
Theorem body_construction_deterministic :
  forall (sc : script) (w : World) (context : Context) (data1 data2 : pointer)
         (s1 s2 : state),
    resolve (heap s1) data1 = resolve (heap s2) data2 ->
    fst (uploadDocument_body_of sc w context data1 s1)
    = fst (uploadDocument_body_of sc w context data2 s2).
Proof.
  intros sc w context data1 data2 s1 s2 Hsame.
  destruct sc; simpl uploadDocument_body_of;
    rewrite ?FirstClient_uploadDocument_body_eq,
            ?Index_uploadDocument_body_eq, ?uploadDocument_body_eq; cbv zeta;
    rewrite Hsame.
  - now destruct (is_nullish _).
  - destruct (is_nullish _); [reflexivity|].
    destruct (is_nullish _); [reflexivity|].
    now destruct (files w (documentPath context)).
  - destruct (is_nullish _); [reflexivity|].
    destruct (is_nullish _); [reflexivity|].
    now destruct (files w (documentPath context)).
Qed.

Lemma body_construction_deterministic_witness :
  resolve (heap first_call) (reservation_at 0) = resolve (heap later_call) (reservation_at 2) /\
  fst (uploadDocument_body_of with_document_id sample_world sample_context
         (reservation_at 0) first_call)
  = fst (uploadDocument_body_of with_document_id sample_world sample_context
           (reservation_at 2) later_call).
Proof.
  assert (Hsame : resolve (heap first_call) (reservation_at 0)
                  = resolve (heap later_call) (reservation_at 2))
    by (vm_compute; reflexivity).
  exact (conj Hsame
           (body_construction_deterministic with_document_id sample_world sample_context
              (reservation_at 0) (reservation_at 2) first_call later_call Hsame)).
Defined.

(** ** Runs that reach the endpoint *)

Lemma not_longer {A : Type} (l : list A) (x : A) : l <> (l ++ [x])%list.
Proof.
  intros H. apply (f_equal (@List.length A)) in H.
  rewrite length_app in H. simpl in H. lia.
Qed.

(** A quiet first part returns, and the request is issued by what follows. *)
Lemma issues_bind_quiet {A B : Type} (m : M A) (k : A -> M B) (s : state) (r : request) :
  quiet m -> issues (bind m k) s r ->
  exists a s1, m s = (Ok a, s1) /\ issues (k a) s1 r.
Proof.
  intros Hq. pose proof (Hq s) as Hs. unfold same_requests in Hs.
  unfold issues, bind. destruct (m s) as [[a|e] s1]; simpl in *; intros H.
  - exists a, s1. split; [reflexivity|]. now rewrite Hs.
  - rewrite Hs in H. now apply not_longer in H.
Qed.

(** Before a quiet last part, the request is issued by the first. *)
Lemma issues_bind_first {A B : Type} (m : M A) (k : A -> M B) (s : state) (r : request) :
  (forall a, quiet (k a)) -> issues (bind m k) s r -> issues m s r.
Proof.
  intros Hq. unfold issues, bind.
  destruct (m s) as [[a|e] s1]; simpl; intros H; [|exact H].
  now rewrite <- (Hq a s1).
Qed.

Lemma fetch_eq {A : Type} (w : World) (r : request) (k : Response -> M A) (s : state) :
  bind (fetch w r) k s
  = match endpoint w r with
    | Some response => k response (fetched s r)
    | None => (Throw NetworkError, fetched s r)
    end.
Proof. unfold fetch, bind, emit. simpl. now destruct (endpoint w r). Qed.

(** [fetch] followed by quiet statements issues the request it is given. *)
Lemma issues_fetch {A : Type} (w : World) (r0 r : request) (k : Response -> M A) (s : state) :
  (forall response, quiet (k response)) -> issues (bind (fetch w r0) k) s r -> r0 = r.
Proof.
  intros Hq. unfold issues. rewrite fetch_eq.
  assert (Hf : requests (log (fetched s r0)) = (requests (log s) ++ [r0])%list).
  { unfold fetched. simpl. now rewrite requests_app. }
  destruct (endpoint w r0) as [response|]; cbn [snd]; intros H.
  - rewrite (Hq response (fetched s r0)), Hf in H.
    apply app_inv_head in H. now injection H.
  - rewrite Hf in H. apply app_inv_head in H. now injection H.
Qed.

Tactic Notation "quiet_step" hyp(H) "as" ident(a) ident(s1) ident(Hm) :=
  apply issues_bind_quiet in H; [|solve [frame]];
  destruct H as (a & s1 & Hm & H).

(** What [uploadDocument] comes to when it issues the request [r]. *)
Lemma uploadDocument_issues (w : World) (context : Context) (data : pointer)
      (s : state) (r : request) :
  issues (WithDocumentId.uploadDocument w context data) s r ->
  exists s1,
    WithDocumentId.uploadDocument w context data s
    = match endpoint w r with
      | Some response => after_fetch response (fetched s1 r)
      | None => (Throw NetworkError, fetched s1 r)
      end.
Proof.
  unfold WithDocumentId.uploadDocument. cbv zeta. intros H.
  quiet_step H as b s1 Hbody.
  rewrite (bind_Ok _ _ _ _ _ Hbody).
  fold after_fetch in H |- *.
  apply issues_fetch in H; [|intros response; frame].
  rewrite fetch_eq, H. now exists s1.
Qed.

(** The request that [uploadDocument] issues carries the JSON text of the
    body it built. *)
Lemma uploadDocument_sends_body (w : World) (context : Context) (data : pointer)
      (s : state) (r : request) :
  issues (WithDocumentId.uploadDocument w context data) s r ->
  exists b, fst (WithDocumentId.uploadDocument_body w context data s) = Ok b /\
            r = post_request context b.
Proof.
  unfold WithDocumentId.uploadDocument. cbv zeta. intros H.
  quiet_step H as b s1 Hbody.
  fold after_fetch in H.
  apply issues_fetch in H; [|intros response; frame].
  exists b. now rewrite Hbody.
Qed.

Lemma FirstClient_uploadDocument_issues (w : World) (context : Context) (data : pointer)
      (s : state) (r : request) :
  issues (FirstClient.uploadDocument w context data) s r ->
  exists s1,
    FirstClient.uploadDocument w context data s
    = match endpoint w r with
      | Some response => after_fetch_unit response (fetched s1 r)
      | None => (Throw NetworkError, fetched s1 r)
      end.
Proof.
  unfold FirstClient.uploadDocument. cbv zeta. intros H.
  rewrite FirstClient_uploadDocument_body_eq in H |- *.
  quiet_step H as body s1 Hbody.
  rewrite (bind_Ok _ _ _ _ _ Hbody).
  fold after_fetch_unit in H |- *.
  apply issues_fetch in H; [|intros response; frame].
  rewrite fetch_eq, H. now exists s1.
Qed.

Lemma Index_uploadDocument_issues (w : World) (context : Context) (data : string)
      (s : state) (r : request) :
  issues (Index.uploadDocument w context data) s r ->
  exists s1,
    Index.uploadDocument w context data s
    = match endpoint w r with
      | Some response =>
        (console_log "DAS API response: [object Response]" ;;;
         after_fetch_unit response) (fetched s1 r)
      | None => (Throw NetworkError, fetched s1 r)
      end.
Proof.
  unfold Index.uploadDocument. cbv zeta. intros H.
  quiet_step H as jsonData s1 Hparse. rewrite (bind_Ok _ _ _ _ _ Hparse).
  quiet_step H as body s2 Hbody. rewrite (bind_Ok _ _ _ _ _ Hbody).
  quiet_step H as u s3 Hlog. rewrite (bind_Ok _ _ _ _ _ Hlog).
  fold after_fetch_unit in H |- *.
  apply issues_fetch in H; [|intros response; frame].
  rewrite fetch_eq, H. now exists s3.
Qed.

Lemma after_fetch_non_ok (r : Response) (json : value) (s : state) :
  ok r = false -> JSON_parse (text r) = Some json ->
  fst (after_fetch r s) = Throw (Error (non_ok_message r json)) /\
  fst (after_fetch_unit r s) = Throw (Error (non_ok_message r json)).
Proof.
  intros Hok Hjson. unfold after_fetch, after_fetch_unit, Response_json.
  rewrite !(bind_Ok _ _ _ _ _ (JSON_parse_text_Some _ _ s Hjson)), Hok. simpl.
  unfold bind, load, throw. simpl. now rewrite resolve_new.
Qed.

Lemma bind_fst_Throw {A B : Type} (m : M A) (k : A -> M B) (s : state) (e : error) :
  fst (m s) = Throw e -> fst (bind m k s) = Throw e.
Proof.
  unfold bind. destruct (m s) as [[a|e'] s']; simpl; intros H; [discriminate | now injection H as ->].
Qed.

Lemma execute_non_ok (w : World) (context : Context) (s : state)
      (req : request) (r : Response) (json : value) :
  issues (WithDocumentId.execute w context) s req ->
  endpoint w req = Some r -> ok r = false -> JSON_parse (text r) = Some json ->
  fst (WithDocumentId.execute w context s) = Throw (Error (non_ok_message r json)).
Proof.
  unfold WithDocumentId.execute. intros H Hreply Hok Hjson.
  quiet_step H as input s1 Hinput. rewrite (bind_Ok _ _ _ _ _ Hinput).
  quiet_step H as clients s2 Hclients. rewrite (bind_Ok _ _ _ _ _ Hclients).
  quiet_step H as client s3 Hclient. rewrite (bind_Ok _ _ _ _ _ Hclient).
  quiet_step H as reservation s4 Hreservation. rewrite (bind_Ok _ _ _ _ _ Hreservation).
  apply issues_bind_first in H; [|intros response; frame].
  apply bind_fst_Throw.
  destruct (uploadDocument_issues _ _ _ _ _ H) as [s5 ->].
  rewrite Hreply. now apply after_fetch_non_ok.
Qed.

Lemma FirstClient_execute_non_ok (w : World) (context : Context) (s : state)
      (req : request) (r : Response) (json : value) :
  issues (FirstClient.execute w context) s req ->
  endpoint w req = Some r -> ok r = false -> JSON_parse (text r) = Some json ->
  fst (FirstClient.execute w context s) = Throw (Error (non_ok_message r json)).
Proof.
  unfold FirstClient.execute. rewrite FirstClient_readInputFile_eq.
  intros H Hreply Hok Hjson.
  quiet_step H as input s1 Hinput. rewrite (bind_Ok _ _ _ _ _ Hinput).
  quiet_step H as clients s2 Hclients. rewrite (bind_Ok _ _ _ _ _ Hclients).
  quiet_step H as client s3 Hclient. rewrite (bind_Ok _ _ _ _ _ Hclient).
  apply issues_bind_first in H; [|intros u; frame].
  apply bind_fst_Throw.
  destruct (FirstClient_uploadDocument_issues _ _ _ _ _ H) as [s5 ->].
  rewrite Hreply. now apply after_fetch_non_ok.
Qed.

Lemma Index_execute_non_ok (w : World) (context : Context) (s : state)
      (req : request) (r : Response) (json : value) :
  issues (Index.execute w context) s req ->
  endpoint w req = Some r -> ok r = false -> JSON_parse (text r) = Some json ->
  fst (Index.execute w context s) = Throw (Error (non_ok_message r json)).
Proof.
  unfold Index.execute, Index.readInputFile. cbv zeta.
  intros H Hreply Hok Hjson.
  quiet_step H as inputJson s1 Hinput. rewrite (bind_Ok _ _ _ _ _ Hinput).
  apply issues_bind_first in H; [|intros u; frame].
  apply bind_fst_Throw.
  destruct (Index_uploadDocument_issues _ _ _ _ _ H) as [s5 ->].
  rewrite Hreply. unfold console_log, bind, emit. simpl.
  now apply after_fetch_non_ok.
Qed.

(** ** A response that is not ok *)

(** C2, as amended. Whatever the script, when [execute] has issued its
    request and the endpoint answers with a status outside 200-299 and a
    body that is valid JSON, [execute] throws the [Error] whose message
    holds the status code, the status text and the JSON text of the parsed
    body.  (The body is parsed before the status is looked at.) *)
Theorem non_ok_reply_throws :
  forall (sc : script) (w : World) (context : Context) (s : state)
         (req : request) (r : Response) (json : value),
    issues (execute_of sc w context) s req ->
    endpoint w req = Some r ->
    ok r = false ->
    JSON_parse (text r) = Some json ->
    fst (execute_of sc w context s)
    = Throw (Error ("Non-OK DAS API response: " ++ Num.to_string (Num.of_Z (status r))
                    ++ " " ++ statusText r ++ ":" ++ template_part (JSON_stringify json))).
Proof.
  intros sc w context s req r json H Hreply Hok Hjson.
  destruct sc; simpl in *.
  - exact (Index_execute_non_ok _ _ _ _ _ _ H Hreply Hok Hjson).
  - exact (FirstClient_execute_non_ok _ _ _ _ _ _ H Hreply Hok Hjson).
  - exact (execute_non_ok _ _ _ _ _ _ H Hreply Hok Hjson).
Qed.

Lemma non_ok_reply_throws_witness :
  let w := world_of sample_input reply_not_found in
  let req := post_request sample_context
               (body_of_record sample_context
                  (WithDocumentId.Reservation_json sample_reservation)
                  (VStr (base64 sample_document))) in
  let json := VObj [("error", VStr "no such application")] in
  issues (execute_of with_document_id w sample_context) initial req /\
  endpoint w req = Some reply_not_found /\
  ok reply_not_found = false /\
  JSON_parse (text reply_not_found) = Some json /\
  fst (execute_of with_document_id w sample_context initial)
  = Throw (Error (json_text
      "Non-OK DAS API response: 404 Not Found:{'error':'no such application'}")).
Proof.
  cbv zeta.
  assert (Hissues : issues (execute_of with_document_id
                              (world_of sample_input reply_not_found) sample_context)
                      initial
                      (post_request sample_context
                         (body_of_record sample_context
                            (WithDocumentId.Reservation_json sample_reservation)
                            (VStr (base64 sample_document)))))
    by (vm_compute; reflexivity).
  assert (Hjson : JSON_parse (text reply_not_found)
                  = Some (VObj [("error", VStr "no such application")]))
    by (vm_compute; reflexivity).
  refine (conj Hissues (conj eq_refl (conj eq_refl (conj Hjson
           (eq_trans (non_ok_reply_throws with_document_id
                        (world_of sample_input reply_not_found) sample_context initial
                        _ reply_not_found _ Hissues eq_refl eq_refl Hjson) _))))).
  vm_compute. reflexivity.
Defined.

(** C2, as the claim states it, fails: the endpoint answers 502 with a body
    that is not JSON; [response.json()] throws before the status is looked
    at, so [execute] ends in a SyntaxError and not in the [Error] that
    carries the status. *)
Lemma non_ok_reply_with_non_json_body :
  let w := world_of sample_input reply_bad_gateway in
  let run := execute_of with_document_id w sample_context initial in
  (exists req, requests (log (snd run)) = [req] /\ endpoint w req = Some reply_bad_gateway) /\
  ok reply_bad_gateway = false /\
  fst run = Throw SyntaxError /\
  (forall message, fst run <> Throw (Error message)).
Proof.
  cbv zeta.
  assert (Hrun : fst (execute_of with_document_id (world_of sample_input reply_bad_gateway)
                                 sample_context initial) = Throw SyntaxError)
    by (vm_compute; reflexivity).
  split; [|split; [|split]].
  - eexists. split; [vm_compute; reflexivity | reflexivity].
  - reflexivity.
  - exact Hrun.
  - intros message. rewrite Hrun. discriminate.
Qed.

(** ** A response that is ok *)

Lemma after_fetch_ok (r : Response) (json : value) (s : state) :
  ok r = true -> JSON_parse (text r) = Some json ->
  after_fetch r s
  = let s1 := mkState (heap s ++ [json]) (log s) in
    match ToString json with
    | Ok t => JSON_parse_text t s1
    | Throw e => (Throw e, s1)
    end.
Proof.
  intros Hok Hjson. unfold after_fetch, Response_json.
  rewrite (bind_Ok _ _ _ _ _ (JSON_parse_text_Some _ _ s Hjson)), Hok. simpl.
  unfold JSON_parse_any, bind, load, lift. simpl. rewrite resolve_new.
  now destruct (ToString json).
Qed.

Lemma object_Object_is_not_JSON : JSON_parse "[object Object]" = None.
Proof. vm_compute. reflexivity. Qed.

(** C9. In the script that returns the response, once the endpoint has
    answered with an ok status and a body that parses to [json],
    [uploadDocument] passes [json] itself to [JSON.parse], which first
    converts it to a string.  So [uploadDocument] returns only if that string
    is valid JSON, and it then returns what the string parses to; for an
    object (without an own [toString]) the string is [[object Object]] and
    [uploadDocument] throws a SyntaxError. *)
Theorem second_parse_of_the_parsed_response :
  forall (w : World) (context : Context) (data : pointer) (s : state)
         (req : request) (r : Response) (json : value),
    issues (WithDocumentId.uploadDocument w context data) s req ->
    endpoint w req = Some r ->
    ok r = true ->
    JSON_parse (text r) = Some json ->
    (forall response s',
        WithDocumentId.uploadDocument w context data s = (Ok response, s') ->
        exists t, ToString json = Ok t /\
                  JSON_parse t = Some (resolve (heap s') response)) /\
    (forall t v, ToString json = Ok t -> JSON_parse t = Some v ->
        exists response s',
          WithDocumentId.uploadDocument w context data s = (Ok response, s') /\
          resolve (heap s') response = v) /\
    (forall properties,
        json = VObj properties -> lookup "toString" properties = None ->
        fst (WithDocumentId.uploadDocument w context data s) = Throw SyntaxError).
Proof.
  intros w context data s req r json H Hreply Hok Hjson.
  destruct (uploadDocument_issues _ _ _ _ _ H) as [s1 ->].
  rewrite Hreply, (after_fetch_ok _ _ _ Hok Hjson). cbv zeta.
  split; [|split].
  - intros response s'. destruct (ToString json) as [t|e]; [|discriminate].
    unfold JSON_parse_text. destruct (JSON_parse t) as [v|] eqn:Ht; [|discriminate].
    unfold alloc. simpl. intros E. injection E as <- <-.
    exists t. split; [reflexivity|]. simpl. now rewrite resolve_new.
  - intros t v -> Ht. rewrite (JSON_parse_text_Some _ _ _ Ht).
    do 2 eexists. split; [reflexivity|]. simpl. apply resolve_new.
  - intros properties -> Hown. simpl. rewrite Hown.
    now rewrite (JSON_parse_text_None _ _ object_Object_is_not_JSON).
Qed.

Lemma second_parse_witness :
  let req := post_request sample_context
               (body_of_record sample_context
                  (WithDocumentId.Reservation_json sample_reservation)
                  (VStr (base64 sample_document))) in
  let json := VObj [("eventId", VStr "e-1");
                    ("documents", VArr [VObj [("documentIndex", VInt 0); ("id", VInt 42)]])] in
  issues (WithDocumentId.uploadDocument sample_world sample_context (reservation_at 0))
         first_call req /\
  endpoint sample_world req = Some reply_ok /\
  ok reply_ok = true /\
  JSON_parse (text reply_ok) = Some json /\
  fst (WithDocumentId.uploadDocument sample_world sample_context (reservation_at 0) first_call)
  = Throw SyntaxError.
Proof.
  cbv zeta.
  assert (Hissues : issues (WithDocumentId.uploadDocument sample_world sample_context
                              (reservation_at 0)) first_call
                      (post_request sample_context
                         (body_of_record sample_context
                            (WithDocumentId.Reservation_json sample_reservation)
                            (VStr (base64 sample_document)))))
    by (vm_compute; reflexivity).
  assert (Hjson : JSON_parse (text reply_ok)
                  = Some (VObj [("eventId", VStr "e-1");
                                ("documents", VArr [VObj [("documentIndex", VInt 0);
                                                          ("id", VInt 42)]])]))
    by (vm_compute; reflexivity).
  exact (conj Hissues (conj eq_refl (conj eq_refl (conj Hjson
           (proj2 (proj2 (second_parse_of_the_parsed_response sample_world sample_context
                            (reservation_at 0) first_call _ reply_ok _
                            Hissues eq_refl eq_refl Hjson))
                  _ eq_refl eq_refl))))).
Defined.

(** ** The search for the document id *)

Lemma never_returns_throw {A : Type} (e : error) : never_returns (@throw A e).
Proof. intros s. now exists e. Qed.

Lemma never_returns_bind {A B : Type} (m : M A) (k : A -> M B) :
  (forall a, never_returns (k a)) -> never_returns (bind m k).
Proof.
  intros Hk s. unfold bind. destruct (m s) as [[a|e] s1].
  - apply Hk.
  - now exists e.
Qed.

Lemma never_returns_first {A B : Type} (m : M A) (k : A -> M B) :
  never_returns m -> never_returns (bind m k).
Proof.
  intros Hm s. unfold bind. destruct (Hm s) as [e He].
  destruct (m s) as [[a|e'] s1]; simpl in *; [discriminate|]. now exists e'.
Qed.

(** What the callback of [forEach] returns is dropped, and after the loop
    comes the [throw]: [getDocumentId] returns on no response at all. *)
Lemma getDocumentId_never_returns (response : pointer) :
  never_returns (WithDocumentId.getDocumentId response).
Proof.
  unfold WithDocumentId.getDocumentId.
  apply never_returns_bind. intros documents.
  apply never_returns_bind. intros _.
  apply never_returns_throw.
Qed.

Lemma execute_never_returns (w : World) (context : Context) :
  never_returns (WithDocumentId.execute w context).
Proof.
  unfold WithDocumentId.execute.
  do 5 (apply never_returns_bind; intros ?).
  apply never_returns_first, getDocumentId_never_returns.
Qed.

Lemma forEach_from_documents (xs : pointer) (s : state) (l : list value)
      (callback : pointer -> M value) :
  resolve (heap s) xs = VArr l ->
  (forall p, is_nullish (resolve (heap s) p) = false -> exists v, callback p s = (Ok v, s)) ->
  forall n i, (i + n <= List.length l)%nat ->
    Forall (fun d => is_nullish d = false) l ->
    forEach_from xs i n callback s = (Ok tt, s).
Proof.
  intros Hxs Hcb n. induction n as [|n IH]; intros i Hlen Hall; simpl; [reflexivity|].
  destruct (Hcb (at_key xs (Idx i))) as [v Hv].
  { rewrite resolve_at_key, Hxs. simpl.
    rewrite Forall_forall in Hall. apply Hall, nth_In. lia. }
  rewrite (bind_Ok _ _ _ _ _ Hv). apply IH; [lia | exact Hall].
Qed.

Lemma getDocumentId_missing (response : pointer) (s : state) (l : list value) :
  resolve (heap s) (at_key response "documents") = VArr l ->
  Forall (fun d => is_nullish d = false) l ->
  WithDocumentId.getDocumentId response s
  = (Throw (Error "No document ID found in upload response"), s).
Proof.
  intros Hdocs Hall. unfold WithDocumentId.getDocumentId.
  assert (Hresponse : is_nullish (resolve (heap s) response) = false).
  { destruct (is_nullish (resolve (heap s) response)) eqn:E; [|reflexivity].
    rewrite resolve_at_key, (get_nullish _ _ E) in Hdocs. discriminate. }
  assert (Hmember : member response "documents" s = (Ok (at_key response "documents"), s))
    by now rewrite member_eq, Hresponse.
  rewrite (bind_Ok _ _ _ _ _ Hmember).
  assert (Hloop : forEach (at_key response "documents")
                    (fun document =>
                       documentIndex <- prop document "documentIndex" ;;
                       if strict_eq_num documentIndex (Num.of_Z 0)
                       then prop document "id" else ret VUndefined) s = (Ok tt, s)).
  { unfold forEach. rewrite Hdocs.
    apply (forEach_from_documents _ _ l); auto.
    intros p Hp. unfold prop, bind, load, ret. rewrite !member_eq, Hp.
    destruct (strict_eq_num _ _); [rewrite member_eq, Hp|]; eauto. }
  now rewrite (bind_Ok _ _ _ _ _ Hloop).
Qed.

Lemma execute_by_response (w : World) (context : Context) (s : state) :
  WithDocumentId.execute w context s
  = (response <- execute_response w context ;;
     documentId <- WithDocumentId.getDocumentId response ;;
     ret (VObj [("documentId", documentId)])) s.
Proof.
  unfold WithDocumentId.execute, execute_response, bind.
  destruct (WithDocumentId.readInputFile w context s) as [[input|e] s1]; [|reflexivity].
  destruct (member input "Clients" s1) as [[clients|e] s2]; [|reflexivity].
  destruct (member clients (Idx 0) s2) as [[client|e] s3]; [|reflexivity].
  destruct (member client "Reservation" s3) as [[reservation|e] s4]; reflexivity.
Qed.

Lemma UploadResponse_documents (u : WithDocumentId.UploadResponse) :
  Forall (fun d => is_nullish d = false)
         (map WithDocumentId.DocumentProps_json (WithDocumentId.documents u)).
Proof. apply Forall_forall. intros d Hd. apply in_map_iff in Hd as [x [<- _]]. reflexivity. Qed.

(** When the response that [uploadDocument] returns to [execute] is an
    UploadResponse whose documents list has no entry with [documentIndex] 0,
    [execute] throws the [Error] "No document ID found in upload response". *)
Lemma getDocumentId_throws_when_reached :
  forall (w : World) (context : Context) (s s1 : state) (response : pointer)
         (u : WithDocumentId.UploadResponse),
    execute_response w context s = (Ok response, s1) ->
    resolve (heap s1) response = WithDocumentId.UploadResponse_json u ->
    (forall d, In d (WithDocumentId.documents u) ->
               Num.eqb (WithDocumentId.documentIndex d) (Num.of_Z 0) = false) ->
    fst (WithDocumentId.execute w context s)
    = Throw (Error "No document ID found in upload response").
Proof.
  intros w context s s1 response u Hresponse Hu _.
  rewrite execute_by_response, (bind_Ok _ _ _ _ _ Hresponse).
  apply bind_fst_Throw.
  rewrite (getDocumentId_missing response s1
             (map WithDocumentId.DocumentProps_json (WithDocumentId.documents u))).
  - reflexivity.
  - rewrite resolve_at_key, Hu. reflexivity.
  - apply UploadResponse_documents.
Qed.

Example getDocumentId_throws_on_quoted_response :
  fst (WithDocumentId.execute (world_of sample_input reply_other_index_quoted)
                              sample_context initial)
  = Throw (Error "No document ID found in upload response").
Proof.
  apply (getDocumentId_throws_when_reached (world_of sample_input reply_other_index_quoted)
           sample_context initial
           (snd (execute_response (world_of sample_input reply_other_index_quoted)
                                  sample_context initial))
           (mkPointer 2 []) other_index_response).
  - vm_compute. reflexivity.
  - vm_compute. reflexivity.
  - intros d [<-|[]]. vm_compute. reflexivity.
Qed.

(** C1, on the code. A valid reservation record and a reply of HTTP 200
    whose body is a well-formed upload response with the entry
    [{documentIndex: 0, id: 42}]: [execute] does not return
    [{documentId: 42}], it throws a SyntaxError, from the second
    [JSON.parse] in [uploadDocument].  When the endpoint sends that response
    as a JSON string, so that the second [JSON.parse] yields it,
    [getDocumentId] drops the id its callback returns and [execute] throws
    "No document ID found in upload response". *)
Theorem execute_does_not_return_the_document_id :
  fst (WithDocumentId.execute (world_of sample_input reply_ok) sample_context initial)
  = Throw SyntaxError /\
  fst (WithDocumentId.execute (world_of sample_input reply_ok_quoted) sample_context initial)
  = Throw (Error "No document ID found in upload response").
Proof. split; vm_compute; reflexivity. Qed.

(** The two scripts that return nothing do complete on an ok response. *)
Lemma after_fetch_unit_ok (r : Response) (json : value) (s : state) :
  ok r = true -> JSON_parse (text r) = Some json -> fst (after_fetch_unit r s) = Ok tt.
Proof.
  intros Hok Hjson. unfold after_fetch_unit, Response_json.
  now rewrite (bind_Ok _ _ _ _ _ (JSON_parse_text_Some _ _ s Hjson)), Hok.
Qed.

Lemma bind_fst_Ok {A B : Type} (m : M A) (k : A -> M B) (s : state) (a : A) (b : B) :
  fst (m s) = Ok a -> (forall s', fst (k a s') = Ok b) -> fst (bind m k s) = Ok b.
Proof.
  unfold bind. destruct (m s) as [[a'|e] s']; simpl; intros H Hk; [|discriminate].
  injection H as ->. apply Hk.
Qed.

Lemma execute_completes_without_id :
  forall (sc : script) (w : World) (context : Context) (s : state)
         (req : request) (r : Response) (json : value),
    sc <> with_document_id ->
    issues (execute_of sc w context) s req ->
    endpoint w req = Some r -> ok r = true -> JSON_parse (text r) = Some json ->
    fst (execute_of sc w context s) = Ok VUndefined.
Proof.
  intros sc w context s req r json Hsc H Hreply Hok Hjson.
  destruct sc; simpl in *; [| |congruence].
  - unfold Index.execute, Index.readInputFile in *. cbv zeta in *.
    quiet_step H as inputJson s1 Hinput. rewrite (bind_Ok _ _ _ _ _ Hinput).
    apply issues_bind_first in H; [|intros u; frame].
    apply (bind_fst_Ok _ _ _ tt); [|reflexivity].
    destruct (Index_uploadDocument_issues _ _ _ _ _ H) as [s5 ->].
    rewrite Hreply. unfold console_log, bind, emit. simpl.
    now apply (after_fetch_unit_ok _ json).
  - unfold FirstClient.execute in *. rewrite FirstClient_readInputFile_eq in *.
    quiet_step H as input s1 Hinput. rewrite (bind_Ok _ _ _ _ _ Hinput).
    quiet_step H as clients s2 Hclients. rewrite (bind_Ok _ _ _ _ _ Hclients).
    quiet_step H as client s3 Hclient. rewrite (bind_Ok _ _ _ _ _ Hclient).
    apply issues_bind_first in H; [|intros u; frame].
    apply (bind_fst_Ok _ _ _ tt); [|reflexivity].
    destruct (FirstClient_uploadDocument_issues _ _ _ _ _ H) as [s5 ->].
    rewrite Hreply. now apply (after_fetch_unit_ok _ json).
Qed.

Example first_client_completes :
  fst (FirstClient.execute (world_of sample_client_input reply_ok) sample_context initial)
  = Ok VUndefined.
Proof. vm_compute. reflexivity. Qed.

Example index_completes :
  fst (Index.execute (world_of sample_flat_input reply_ok) sample_context initial)
  = Ok VUndefined.
Proof. vm_compute. reflexivity. Qed.

(** ** The document *)

(** The scripts that await [readDocumentAsBase64] send one document whose
    [fileContent] is the base64 text of the document file. *)
Lemma fileContent_is_base64 :
  forall (w : World) (context : Context) (data : pointer) (s : state)
         (document : string) (body : value),
    files w (documentPath context) = Some document ->
    fst (WithDocumentId.uploadDocument_body w context data s) = Ok body ->
    (exists d, get body "documents" = VArr [d]) /\
    fileContent_of body = VStr (base64 document).
Proof.
  intros w context data s document body Hfile.
  rewrite uploadDocument_body_eq. cbv zeta. rewrite Hfile.
  destruct (is_nullish _); [discriminate|].
  destruct (is_nullish _); [discriminate|].
  simpl. intros H. injection H as <-. split; [eexists|]; reflexivity.
Qed.

(** So the request they issue carries the JSON text of a body with one
    document and that text in [fileContent]. *)
Lemma sent_fileContent_is_base64 :
  forall (w : World) (context : Context) (data : pointer) (s : state)
         (document : string) (r : request),
    files w (documentPath context) = Some document ->
    issues (WithDocumentId.uploadDocument w context data) s r ->
    exists sent,
      body r = JSON_stringify sent /\
      (exists d, get sent "documents" = VArr [d]) /\
      fileContent_of sent = VStr (base64 document).
Proof.
  intros w context data s document r Hfile H.
  destruct (uploadDocument_sends_body _ _ _ _ _ H) as (b & Hb & ->).
  exists b. split; [reflexivity|].
  exact (fileContent_is_base64 _ _ _ _ _ _ Hfile Hb).
Qed.

Lemma FirstClient_sent_fileContent_is_base64 :
  forall (w : World) (context : Context) (data : pointer) (s : state)
         (document : string) (r : request),
    files w (documentPath context) = Some document ->
    issues (FirstClient.uploadDocument w context data) s r ->
    exists sent,
      body r = JSON_stringify sent /\
      (exists d, get sent "documents" = VArr [d]) /\
      fileContent_of sent = VStr (base64 document).
Proof.
  intros w context data s document r Hfile H.
  unfold FirstClient.uploadDocument in H. cbv zeta in H.
  rewrite FirstClient_uploadDocument_body_eq in H.
  quiet_step H as b s1 Hbody.
  fold after_fetch_unit in H.
  apply issues_fetch in H; [|intros response; frame].
  exists b. rewrite <- H. split; [reflexivity|].
  apply (fileContent_is_base64 w context data s); [exact Hfile | now rewrite Hbody].
Qed.

(** src/index.ts puts the promise there, which [JSON.stringify] writes as
    an empty object. *)
Lemma Index_fileContent_is_promise :
  forall (w : World) (context : Context) (jsonData : pointer) (s : state) (body : value),
    fst (Index.uploadDocument_body w context jsonData s) = Ok body ->
    fileContent_of body = VPromise /\ JSON_stringify (fileContent_of body) = Some "{}".
Proof.
  intros w context jsonData s body. rewrite Index_uploadDocument_body_eq. cbv zeta.
  destruct (is_nullish _); simpl; [discriminate|].
  intros H. injection H as <-. split; reflexivity.
Qed.

(** C6, on the code. src/index.ts, the example record of the specification
    and a document of ten bytes: the one request that [execute] issues has a
    body that is valid JSON with one document, and its [fileContent] is the
    empty object, not the base64 text of the ten bytes. *)
Theorem index_sends_no_file_content :
  let run := Index.execute (world_of sample_flat_input reply_ok) sample_context initial in
  exists req text sent,
    requests (log (snd run)) = [req] /\
    body req = Some text /\
    JSON_parse text = Some sent /\
    (exists d, get sent "documents" = VArr [d]) /\
    fileContent_of sent = VObj [] /\
    fileContent_of sent <> VStr (base64 sample_document).
Proof.
  cbv zeta. do 3 eexists.
  split; [vm_compute; reflexivity|].
  split; [reflexivity|].
  split; [vm_compute; reflexivity|].
  split; [eexists; reflexivity|].
  split; [reflexivity | discriminate].
Qed.

(** ** An ok response that is a JSON object *)

(** In the script that returns the document id, every ok response whose
    body is a JSON object ends [execute] in the SyntaxError of the second
    [JSON.parse]; [getDocumentId] is not reached. *)
Lemma execute_object_response (w : World) (context : Context) (s : state)
      (req : request) (r : Response) (properties : list (string * value)) :
  issues (WithDocumentId.execute w context) s req ->
  endpoint w req = Some r -> ok r = true ->
  JSON_parse (text r) = Some (VObj properties) ->
  lookup "toString" properties = None ->
  fst (WithDocumentId.execute w context s) = Throw SyntaxError.
Proof.
  unfold WithDocumentId.execute. intros H Hreply Hok Hjson Hown.
  quiet_step H as input s1 Hinput. rewrite (bind_Ok _ _ _ _ _ Hinput).
  quiet_step H as clients s2 Hclients. rewrite (bind_Ok _ _ _ _ _ Hclients).
  quiet_step H as client s3 Hclient. rewrite (bind_Ok _ _ _ _ _ Hclient).
  quiet_step H as reservation s4 Hreservation. rewrite (bind_Ok _ _ _ _ _ Hreservation).
  apply issues_bind_first in H; [|intros response; frame].
  apply bind_fst_Throw.
  destruct (uploadDocument_issues _ _ _ _ _ H) as [s5 ->].
  rewrite Hreply, (after_fetch_ok _ _ _ Hok Hjson). simpl. rewrite Hown.
  now rewrite (JSON_parse_text_None _ _ object_Object_is_not_JSON).
Qed.

(** C3, on the code. A reply of HTTP 200 whose body is an upload response
    with the one entry [{documentIndex: 1, id: 42}]: [execute] does not
    throw "No document ID found in upload response", it throws the
    SyntaxError of the second [JSON.parse] in [uploadDocument]. *)
Theorem missing_index_response_ends_in_SyntaxError :
  let run := WithDocumentId.execute (world_of sample_input reply_other_index)
                                    sample_context initial in
  fst run = Throw SyntaxError /\
  fst run <> Throw (Error "No document ID found in upload response").
Proof.
  cbv zeta.
  assert (Hrun : fst (WithDocumentId.execute (world_of sample_input reply_other_index)
                                             sample_context initial) = Throw SyntaxError)
    by (vm_compute; reflexivity).
  split; [exact Hrun | rewrite Hrun; discriminate].
Qed.

(** * Part IV: more of the scripts *)

(** ** Statements that leave the log alone *)

Lemma logless_ret {A : Type} (a : A) : logless (ret a).
Proof. intros s. reflexivity. Qed.

Lemma logless_throw {A : Type} (e : error) : logless (@throw A e).
Proof. intros s. reflexivity. Qed.

Lemma logless_lift {A : Type} (r : result A) : logless (lift r).
Proof. intros s. reflexivity. Qed.

Lemma logless_bind {A B : Type} (m : M A) (k : A -> M B) :
  logless m -> (forall a, logless (k a)) -> logless (bind m k).
Proof.
  intros Hm Hk s. unfold bind. pose proof (Hm s) as H1.
  destruct (m s) as [[a|e] s1]; simpl in *; [|exact H1].
  now rewrite (Hk a s1).
Qed.

Lemma logless_alloc (v : value) : logless (alloc v).
Proof. intros s. reflexivity. Qed.

Lemma logless_load (p : pointer) : logless (load p).
Proof. intros s. reflexivity. Qed.

Lemma logless_member (x : pointer) (k : key) : logless (member x k).
Proof. intros s. rewrite member_eq. now destruct (is_nullish _). Qed.

Lemma logless_prop (x : pointer) (k : key) : logless (prop x k).
Proof. apply logless_bind; [apply logless_member | intros p; apply logless_load]. Qed.

Lemma logless_JSON_parse_text (text : string) : logless (JSON_parse_text text).
Proof.
  unfold JSON_parse_text. destruct (JSON_parse text);
    [apply logless_alloc | apply logless_throw].
Qed.

Lemma logless_JSON_parse_any (x : pointer) : logless (JSON_parse_any x).
Proof.
  unfold JSON_parse_any.
  apply logless_bind; [apply logless_load | intros v].
  apply logless_bind; [apply logless_lift | intros t; apply logless_JSON_parse_text].
Qed.

Lemma logless_after_fetch (r : Response) : logless (after_fetch r).
Proof.
  unfold after_fetch, Response_json.
  apply logless_bind; [apply logless_JSON_parse_text | intros json].
  destruct (negb (ok r)); [|apply logless_JSON_parse_any].
  apply logless_bind; [apply logless_load | intros j; apply logless_throw].
Qed.

Lemma logless_after_fetch_unit (r : Response) : logless (after_fetch_unit r).
Proof.
  unfold after_fetch_unit, Response_json.
  apply logless_bind; [apply logless_JSON_parse_text | intros json].
  destruct (negb (ok r)); [|apply logless_ret].
  apply logless_bind; [apply logless_load | intros j; apply logless_throw].
Qed.

Lemma logless_forEach_from (xs : pointer) (callback : pointer -> M value) :
  (forall p, logless (callback p)) ->
  forall n i, logless (forEach_from xs i n callback).
Proof.
  intros Hc n. induction n as [|n IH]; intros i; simpl.
  - apply logless_ret.
  - apply logless_bind; [apply Hc | intros _; apply IH].
Qed.

Lemma logless_forEach (xs : pointer) (callback : pointer -> M value) :
  (forall p, logless (callback p)) -> logless (forEach xs callback).
Proof.
  intros Hc s. unfold forEach.
  destruct (resolve (heap s) xs); try reflexivity.
  now apply logless_forEach_from.
Qed.

Lemma logless_getDocumentId (response : pointer) :
  logless (WithDocumentId.getDocumentId response).
Proof.
  unfold WithDocumentId.getDocumentId.
  apply logless_bind; [apply logless_member | intros documents].
  apply logless_bind; [|intros _; apply logless_throw].
  apply logless_forEach. intros p.
  apply logless_bind; [apply logless_prop | intros documentIndex].
  destruct (strict_eq_num _ _); [apply logless_prop | apply logless_ret].
Qed.

(** ** getDocumentId *)

Lemma skipn_nth {A : Type} (l : list A) (i : nat) (d : A) :
  (i < List.length l)%nat -> skipn i l = nth i l d :: skipn (S i) l.
Proof.
  revert i. induction l as [|x l IH]; intros i Hi; simpl in Hi; [lia|].
  destruct i as [|i]; [reflexivity|].
  simpl. apply IH. lia.
Qed.

(** The callback of [getDocumentId] on one entry: a TypeError on [null],
    and otherwise a value that [forEach] drops. *)
Lemma getDocumentId_callback (p : pointer) (s : state) :
  exists r,
    (documentIndex <- prop p "documentIndex" ;;
     if strict_eq_num documentIndex (Num.of_Z 0) then prop p "id" else ret VUndefined) s
    = (r, s) /\
    (is_nullish (resolve (heap s) p) = true -> r = Throw TypeError) /\
    (is_nullish (resolve (heap s) p) = false -> exists v, r = Ok v).
Proof.
  unfold prop, bind, load, ret. rewrite !member_eq.
  destruct (is_nullish (resolve (heap s) p)) eqn:Hp.
  - eexists. split; [reflexivity|]. split; [reflexivity | discriminate].
  - destruct (strict_eq_num _ _); [rewrite member_eq, Hp|];
      (eexists; split; [reflexivity|]; split; [discriminate | eauto]).
Qed.

Lemma forEach_from_entries (xs : pointer) (s : state) (l : list value) :
  resolve (heap s) xs = VArr l ->
  forall n i, (i + n <= List.length l)%nat ->
    forEach_from xs i n
      (fun document =>
         documentIndex <- prop document "documentIndex" ;;
         if strict_eq_num documentIndex (Num.of_Z 0) then prop document "id"
         else ret VUndefined) s
    = (if existsb is_nullish (firstn n (skipn i l)) then Throw TypeError else Ok tt, s).
Proof.
  intros Hxs n. induction n as [|n IH]; intros i Hlen; [reflexivity|].
  rewrite (skipn_nth l i VUndefined) by lia.
  cbn [forEach_from firstn existsb].
  destruct (getDocumentId_callback (at_key xs (Idx i)) s) as (r & Hr & Hnull & Hother).
  rewrite resolve_at_key, Hxs in Hnull, Hother. simpl get in Hnull, Hother.
  unfold bind at 1. rewrite Hr.
  destruct (is_nullish (nth i l VUndefined)).
  - now rewrite (Hnull eq_refl).
  - destruct (Hother eq_refl) as [v ->]. simpl. apply IH. lia.
Qed.

(** X2. [getDocumentId] on any response: a TypeError when the response has
    no [documents] array or the array holds [null]; otherwise, whatever the
    entries are and even when one has [documentIndex] 0, the [Error]
    "No document ID found in upload response".  It changes nothing. *)
Theorem getDocumentId_outcome :
  forall (response : pointer) (s : state),
    WithDocumentId.getDocumentId response s
    = (match get (resolve (heap s) response) "documents" with
       | VArr entries =>
         if existsb is_nullish entries then Throw TypeError
         else Throw (Error "No document ID found in upload response")
       | _ => Throw TypeError
       end, s).
Proof.
  intros response s. unfold WithDocumentId.getDocumentId.
  unfold bind at 1. rewrite member_eq.
  destruct (is_nullish (resolve (heap s) response)) eqn:Hresponse.
  { now rewrite (get_nullish _ _ Hresponse). }
  unfold bind at 1. unfold forEach. rewrite resolve_at_key.
  destruct (get (resolve (heap s) response) "documents") as [| | | | |l| |] eqn:Hdocs;
    try reflexivity.
  rewrite (forEach_from_entries _ s l); [|now rewrite resolve_at_key | simpl; lia].
  simpl skipn. rewrite firstn_all.
  now destruct (existsb is_nullish l).
Qed.

(** ** A run of execute, case by case *)

Lemma read_None (w : World) (path : string) (s : state) :
  files w path = None -> read w path s = (Throw (ReadError path), logged s [ERead path]).
Proof. intros H. unfold read, bind, emit, throw. simpl. now rewrite H. Qed.

Lemma present_get (v : value) (k : key) : is_nullish (get v k) = false -> is_nullish v = false.
Proof.
  intros H. destruct (is_nullish v) eqn:E; [|reflexivity].
  now rewrite (get_nullish _ _ E) in H.
Qed.

Lemma member_present (x : pointer) (k : key) (s : state) :
  is_nullish (resolve (heap s) x) = false -> member x k s = (Ok (at_key x k), s).
Proof. intros H. now rewrite member_eq, H. Qed.

Lemma member_absent (x : pointer) (k : key) (s : state) :
  is_nullish (resolve (heap s) x) = true -> member x k s = (Throw TypeError, s).
Proof. intros H. now rewrite member_eq, H. Qed.

Lemma resolve_input (s : state) (context : Context) (input : value) :
  resolve (heap (with_input s context input)) (mkPointer (List.length (heap s)) []) = input.
Proof. apply resolve_new. Qed.

Lemma sent_eq (sc : script) (s : state) (context : Context) (input : value) (r : request) :
  sc <> index_ts ->
  fetched (mkState (heap (with_input s context input))
                   (log (with_input s context input)
                    ++ [EReadAsBase64 (documentPath context)])) r
  = sent sc s context input r.
Proof.
  intros Hsc. unfold fetched, sent, with_input. simpl. rewrite <- !app_assoc. simpl.
  now destruct sc.
Qed.

Lemma WithDocumentId_execute_eq (w : World) (context : Context) (s : state) :
  WithDocumentId.execute w context s = outcome with_document_id w context s.
Proof.
  unfold outcome. cbv zeta. unfold WithDocumentId.execute.
  destruct (files w (inputDataPath context)) as [inputData|] eqn:Hfile.
  2:{ unfold WithDocumentId.readInputFile.
      now rewrite (bind_Throw _ _ _ _ _ (bind_Throw _ _ _ _ _ (read_None _ _ s Hfile))). }
  destruct (JSON_parse inputData) as [input|] eqn:Hparse.
  2:{ unfold WithDocumentId.readInputFile.
      now rewrite (bind_Throw _ _ _ _ _
                     (eq_trans (bind_Ok _ _ _ _ _ (read_Some _ _ _ s Hfile))
                               (JSON_parse_text_None _ _ Hparse))). }
  rewrite (bind_Ok _ _ _ _ _ (readInputFile_Some w context s _ _ Hfile Hparse)).
  fold (with_input s context input).
  set (s1 := with_input s context input).
  set (p := mkPointer (List.length (heap s)) []).
  assert (Hp : resolve (heap s1) p = input) by apply resolve_input.
  unfold uploadable, record_of.
  assert (R0 : is_nullish (resolve (heap s1) p) = is_nullish input) by now rewrite Hp.
  assert (R1 : is_nullish (resolve (heap s1) (at_key p "Clients"))
               = is_nullish (get input "Clients"))
    by now rewrite resolve_at_key, Hp.
  assert (R2 : is_nullish (resolve (heap s1) (at_key (at_key p "Clients") (Idx 0)))
               = is_nullish (get (get input "Clients") (Idx 0)))
    by now rewrite !resolve_at_key, Hp.
  destruct (is_nullish input) eqn:H0.
  { rewrite !(get_nullish _ _ H0). simpl.
    now rewrite (bind_Throw _ _ _ _ _ (member_absent p "Clients" s1 R0)). }
  rewrite (bind_Ok _ _ _ _ _ (member_present p "Clients" s1 R0)).
  destruct (is_nullish (get input "Clients")) eqn:H1.
  { rewrite !(get_nullish _ _ H1). simpl.
    now rewrite (bind_Throw _ _ _ _ _ (member_absent _ (Idx 0) s1 R1)). }
  rewrite (bind_Ok _ _ _ _ _ (member_present _ (Idx 0) s1 R1)).
  destruct (is_nullish (get (get input "Clients") (Idx 0))) eqn:H2.
  { rewrite !(get_nullish _ _ H2). simpl.
    now rewrite (bind_Throw _ _ _ _ _ (member_absent _ "Reservation" s1 R2)). }
  rewrite (bind_Ok _ _ _ _ _ (member_present _ "Reservation" s1 R2)).
  set (data := at_key (at_key (at_key p "Clients") (Idx 0)) "Reservation").
  assert (Hdata : resolve (heap s1) data
                  = get (get (get input "Clients") (Idx 0)) "Reservation")
    by (unfold data; now rewrite !resolve_at_key, Hp).
  unfold WithDocumentId.uploadDocument. cbv zeta.
  rewrite !bind_assoc.
  unfold bind at 1. rewrite uploadDocument_body_eq. cbv zeta. rewrite Hdata.
  destruct (is_nullish (get (get (get input "Clients") (Idx 0)) "Reservation")) eqn:H3.
  { now rewrite (get_nullish _ _ H3). }
  destruct (is_nullish (get (get (get (get input "Clients") (Idx 0)) "Reservation") "hotel"));
    [reflexivity|].
  simpl negb. cbv iota. unfold awaited_document.
  destruct (files w (documentPath context)) as [document|]; [|reflexivity].
  rewrite bind_assoc, fetch_eq. unfold request_for, body_for, target, post_request.
  subst s1. rewrite (sent_eq with_document_id) by discriminate.
  reflexivity.
Qed.

Lemma FirstClient_execute_eq (w : World) (context : Context) (s : state) :
  FirstClient.execute w context s = outcome first_client w context s.
Proof.
  unfold outcome. cbv zeta. unfold FirstClient.execute.
  rewrite FirstClient_readInputFile_eq.
  destruct (files w (inputDataPath context)) as [inputData|] eqn:Hfile.
  2:{ unfold WithDocumentId.readInputFile.
      now rewrite (bind_Throw _ _ _ _ _ (bind_Throw _ _ _ _ _ (read_None _ _ s Hfile))). }
  destruct (JSON_parse inputData) as [input|] eqn:Hparse.
  2:{ unfold WithDocumentId.readInputFile.
      now rewrite (bind_Throw _ _ _ _ _
                     (eq_trans (bind_Ok _ _ _ _ _ (read_Some _ _ _ s Hfile))
                               (JSON_parse_text_None _ _ Hparse))). }
  rewrite (bind_Ok _ _ _ _ _ (readInputFile_Some w context s _ _ Hfile Hparse)).
  fold (with_input s context input).
  set (s1 := with_input s context input).
  set (p := mkPointer (List.length (heap s)) []).
  assert (Hp : resolve (heap s1) p = input) by apply resolve_input.
  unfold uploadable, record_of.
  assert (R0 : is_nullish (resolve (heap s1) p) = is_nullish input) by now rewrite Hp.
  assert (R1 : is_nullish (resolve (heap s1) (at_key p "Clients"))
               = is_nullish (get input "Clients"))
    by now rewrite resolve_at_key, Hp.
  destruct (is_nullish input) eqn:H0.
  { rewrite !(get_nullish _ _ H0). simpl.
    now rewrite (bind_Throw _ _ _ _ _ (member_absent p "Clients" s1 R0)). }
  rewrite (bind_Ok _ _ _ _ _ (member_present p "Clients" s1 R0)).
  destruct (is_nullish (get input "Clients")) eqn:H1.
  { rewrite !(get_nullish _ _ H1). simpl.
    now rewrite (bind_Throw _ _ _ _ _ (member_absent _ (Idx 0) s1 R1)). }
  rewrite (bind_Ok _ _ _ _ _ (member_present _ (Idx 0) s1 R1)).
  set (data := at_key (at_key p "Clients") (Idx 0)).
  assert (Hdata : resolve (heap s1) data = get (get input "Clients") (Idx 0))
    by (unfold data; now rewrite !resolve_at_key, Hp).
  unfold FirstClient.uploadDocument. cbv zeta.
  rewrite FirstClient_uploadDocument_body_eq, !bind_assoc.
  unfold bind at 1. rewrite uploadDocument_body_eq. cbv zeta. rewrite Hdata.
  destruct (is_nullish (get (get input "Clients") (Idx 0))) eqn:H2.
  { now rewrite (get_nullish _ _ H2). }
  destruct (is_nullish (get (get (get input "Clients") (Idx 0)) "hotel")); [reflexivity|].
  simpl negb. cbv iota. unfold awaited_document.
  destruct (files w (documentPath context)) as [document|]; [|reflexivity].
  rewrite bind_assoc, fetch_eq. unfold request_for, body_for, target, post_request.
  subst s1. rewrite (sent_eq first_client) by discriminate.
  reflexivity.
Qed.

Lemma Index_execute_eq (w : World) (context : Context) (s : state) :
  Index.execute w context s = outcome index_ts w context s.
Proof.
  unfold outcome. cbv zeta. unfold Index.execute, Index.readInputFile. cbv zeta.
  destruct (files w (inputDataPath context)) as [inputData|] eqn:Hfile.
  2:{ now rewrite (bind_Throw _ _ _ _ _ (read_None _ _ s Hfile)). }
  rewrite (bind_Ok _ _ _ _ _ (read_Some _ _ _ s Hfile)).
  unfold Index.uploadDocument. cbv zeta.
  destruct (JSON_parse inputData) as [input|] eqn:Hparse.
  2:{ now rewrite (bind_Throw _ _ _ _ _
                     (bind_Throw _ _ _ _ _ (JSON_parse_text_None _ _ Hparse))). }
  rewrite !bind_assoc, (bind_Ok _ _ _ _ _ (JSON_parse_text_Some _ _ _ Hparse)).
  simpl heap. simpl log. fold (with_input s context input).
  set (s1 := with_input s context input).
  rewrite bind_assoc. unfold bind at 1. rewrite Index_uploadDocument_body_eq. cbv zeta.
  replace (resolve (heap s1) (mkPointer (List.length (heap s)) [])) with input
    by (symmetry; apply resolve_input).
  unfold uploadable.
  destruct (is_nullish input); [reflexivity|].
  simpl negb. cbv iota. unfold awaited_document.
  rewrite !bind_assoc.
  unfold console_log at 1. unfold bind at 1, emit at 1. cbv iota beta.
  rewrite !bind_assoc, fetch_eq. unfold request_for, body_for, target, upload_path.
  assert (Hsent : forall r,
             fetched (mkState (heap (mkState (heap s1)
                                 (log s1 ++ [EReadAsBase64 (documentPath context)])))
                        (log (mkState (heap s1)
                                (log s1 ++ [EReadAsBase64 (documentPath context)]))
                         ++ [EConsoleLog "Calling DAS API to upload document"])) r
             = sent index_ts s context input r).
  { intros r. unfold fetched, sent, s1, with_input. simpl. now rewrite <- !app_assoc. }
  rewrite Hsent.
  destruct (endpoint w _) as [response|]; [|reflexivity].
  unfold conclude. rewrite !bind_assoc. reflexivity.
Qed.

(** Whatever the script, a run of [execute] is one row of the table
    [outcome]. *)
Lemma execute_outcome (sc : script) (w : World) (context : Context) (s : state) :
  execute_of sc w context s = outcome sc w context s.
Proof.
  destruct sc.
  - apply Index_execute_eq.
  - apply FirstClient_execute_eq.
  - apply WithDocumentId_execute_eq.
Qed.

(** ** What a script does with the response *)

Lemma after_fetch_unit_eq (r : Response) (s : state) :
  after_fetch_unit r s
  = match JSON_parse (text r) with
    | None => (Throw SyntaxError, s)
    | Some json =>
      (if ok r then Ok tt else Throw (Error (non_ok_message r json)),
       mkState (heap s ++ [json]) (log s))
    end.
Proof.
  unfold after_fetch_unit, Response_json.
  destruct (JSON_parse (text r)) as [json|] eqn:Hjson.
  - rewrite (bind_Ok _ _ _ _ _ (JSON_parse_text_Some _ _ s Hjson)).
    destruct (ok r); simpl; [reflexivity|].
    unfold bind, load, throw. simpl. now rewrite resolve_new.
  - now rewrite (bind_Throw _ _ _ _ _ (JSON_parse_text_None _ s Hjson)).
Qed.

Lemma conclude_log (sc : script) (r : Response) (s : state) :
  log (snd (conclude sc r s))
  = (log s ++ match sc with
              | index_ts => [EConsoleLog "DAS API response: [object Response]"]
              | _ => []
              end)%list.
Proof.
  destruct sc; unfold conclude.
  - unfold console_log. unfold bind at 1, emit at 1. cbv iota beta.
    pose proof (logless_bind _ _ (logless_after_fetch_unit r)
                  (fun _ => logless_ret VUndefined)) as L.
    unfold logless in L. now rewrite L.
  - pose proof (logless_bind _ _ (logless_after_fetch_unit r)
                  (fun _ => logless_ret VUndefined)) as L.
    unfold logless in L. now rewrite L, app_nil_r.
  - pose proof (logless_bind _ _ (logless_after_fetch r)
                  (fun response =>
                     logless_bind _ _ (logless_getDocumentId response)
                       (fun documentId => logless_ret (VObj [("documentId", documentId)]))))
      as L.
    unfold logless in L. now rewrite L, app_nil_r.
Qed.

Lemma requests_sent (sc : script) (s : state) (context : Context) (input : value)
      (r : request) :
  requests (log (sent sc s context input r)) = (requests (log s) ++ [r])%list.
Proof. unfold sent. simpl. rewrite requests_app. now destruct sc. Qed.

Lemma requests_conclude (sc : script) (r : Response) (s : state) :
  requests (log (snd (conclude sc r s))) = requests (log s).
Proof. rewrite conclude_log, requests_app. destruct sc; simpl; now rewrite app_nil_r. Qed.

Lemma requests_logged (s : state) (e : event) :
  is_request e = false -> requests (log (logged s [e])) = requests (log s).
Proof.
  intros H. unfold logged. simpl. rewrite requests_app.
  destruct e; try discriminate; simpl; now rewrite app_nil_r.
Qed.

Lemma conclude_not_JSON (sc : script) (r : Response) (s : state) :
  JSON_parse (text r) = None -> fst (conclude sc r s) = Throw SyntaxError.
Proof.
  intros Hjson. destruct sc; unfold conclude.
  - unfold console_log. unfold bind at 1, emit at 1. cbv iota beta.
    unfold bind. now rewrite after_fetch_unit_eq, Hjson.
  - unfold bind. now rewrite after_fetch_unit_eq, Hjson.
  - apply bind_fst_Throw. unfold after_fetch, Response_json.
    now rewrite (bind_Throw _ _ _ _ _ (JSON_parse_text_None _ s Hjson)).
Qed.

Lemma conclude_Ok (sc : script) (r : Response) (s : state) (v : value) :
  fst (conclude sc r s) = Ok v ->
  sc <> with_document_id /\ v = VUndefined /\ ok r = true /\ JSON_parse (text r) <> None.
Proof.
  destruct sc; unfold conclude.
  - unfold console_log. unfold bind at 1, emit at 1. cbv iota beta.
    unfold bind. rewrite after_fetch_unit_eq.
    destruct (JSON_parse (text r)); [|discriminate].
    destruct (ok r); simpl; [|discriminate].
    intros H. injection H as <-. repeat split; discriminate.
  - unfold bind. rewrite after_fetch_unit_eq.
    destruct (JSON_parse (text r)); [|discriminate].
    destruct (ok r); simpl; [|discriminate].
    intros H. injection H as <-. repeat split; discriminate.
  - intros H.
    destruct (never_returns_bind (after_fetch r)
                (fun response =>
                   documentId <- WithDocumentId.getDocumentId response ;;
                   ret (VObj [("documentId", documentId)]))
                (fun response =>
                   never_returns_first _ _ (getDocumentId_never_returns response)) s)
      as [e He].
    congruence.
Qed.

(** The rows of [outcome], in the order: a response, no response, no
    document, no record to upload, no JSON, no input file. *)
Tactic Notation "rows" constr(sc) constr(w) constr(ctx) :=
  unfold outcome; cbv zeta;
  let inputData := fresh "inputData" in
  let input := fresh "input" in
  let document := fresh "document" in
  let response := fresh "response" in
  destruct (files w (inputDataPath ctx)) as [inputData|] eqn:Hfile;
  [ destruct (JSON_parse inputData) as [input|] eqn:Hparse;
    [ destruct (uploadable sc input) eqn:Hup;
      [ destruct (awaited_document sc w ctx) as [document|] eqn:Hdoc;
        [ destruct (endpoint w (request_for sc ctx (record_of sc input) document))
            as [response|] eqn:Hreply
        | ]
      | ]
    | ]
  | ].

(** The request of a run, if it issues one. *)
Lemma issues_request_for (sc : script) (w : World) (context : Context) (s : state)
      (r : request) :
  issues (execute_of sc w context) s r ->
  exists inputData input document,
    files w (inputDataPath context) = Some inputData /\
    JSON_parse inputData = Some input /\
    uploadable sc input = true /\
    awaited_document sc w context = Some document /\
    r = request_for sc context (record_of sc input) document /\
    execute_of sc w context s
    = match endpoint w r with
      | Some response => conclude sc response (sent sc s context input r)
      | None => (Throw NetworkError, sent sc s context input r)
      end.
Proof.
  unfold issues. rewrite execute_outcome. rows sc w context; simpl snd.
  - rewrite requests_conclude, requests_sent. intros H.
    apply app_inv_head in H. injection H as <-.
    exists inputData, input, document. rewrite Hreply. now repeat split.
  - rewrite requests_sent. intros H.
    apply app_inv_head in H. injection H as <-.
    exists inputData, input, document. rewrite Hreply. now repeat split.
  - unfold logged, with_input. simpl. rewrite <- app_assoc, requests_app. simpl.
    rewrite app_nil_r. intros H. now apply not_longer in H.
  - unfold with_input. simpl. rewrite requests_app. simpl.
    rewrite app_nil_r. intros H. now apply not_longer in H.
  - rewrite requests_logged by reflexivity. intros H. now apply not_longer in H.
  - rewrite requests_logged by reflexivity. intros H. now apply not_longer in H.
Qed.

(** The converse: the run issues the request once the input is read, is
    JSON, holds a record to upload, and the document is there. *)
Lemma request_for_issues (sc : script) (w : World) (context : Context) (s : state)
      (inputData document : string) (input : value) :
  files w (inputDataPath context) = Some inputData ->
  JSON_parse inputData = Some input ->
  uploadable sc input = true ->
  awaited_document sc w context = Some document ->
  issues (execute_of sc w context) s (request_for sc context (record_of sc input) document).
Proof.
  intros Hfile Hparse Hup Hdoc. unfold issues.
  rewrite execute_outcome. unfold outcome. cbv zeta. rewrite Hfile, Hparse, Hup, Hdoc.
  destruct (endpoint w _); simpl snd; now rewrite ?requests_conclude, requests_sent.
Qed.

(** ** The edges of a run *)

(** X1. The script that is to return the document id returns on no input:
    whatever the files, the parameters and the endpoint, [execute] ends in an
    exception. *)
Theorem execute_with_document_id_always_throws :
  forall (w : World) (context : Context) (s : state),
    exists e, fst (WithDocumentId.execute w context s) = Throw e.
Proof. intros w context. exact (execute_never_returns w context). Qed.

(** X3. When the input file cannot be read, [execute] of each script ends in
    the error of the read, and the read is all it has done: no document is
    read and no request issued. *)
Theorem missing_input_file_stops_the_run :
  forall (sc : script) (w : World) (context : Context) (s : state),
    files w (inputDataPath context) = None ->
    execute_of sc w context s
    = (Throw (ReadError (inputDataPath context)), logged s [ERead (inputDataPath context)]).
Proof.
  intros sc w context s Hfile. rewrite execute_outcome. unfold outcome. cbv zeta.
  now rewrite Hfile.
Qed.

Lemma missing_input_file_witness :
  files world_without_input (inputDataPath sample_context) = None /\
  execute_of index_ts world_without_input sample_context initial
  = (Throw (ReadError "input.json"), mkState [] [ERead "input.json"]).
Proof.
  split; [reflexivity|].
  exact (missing_input_file_stops_the_run index_ts world_without_input sample_context
           initial eq_refl).
Defined.

(** X4. An input that is JSON but holds no record to upload (src/index.ts:
    the input is [null]; the two others: there is no first client, or no
    reservation, or the record has no hotel) ends [execute] in a TypeError
    once the input is parsed: the document is not read and no request is
    issued. *)
Theorem input_without_record_is_a_TypeError :
  forall (sc : script) (w : World) (context : Context) (s : state)
         (inputData : string) (input : value),
    files w (inputDataPath context) = Some inputData ->
    JSON_parse inputData = Some input ->
    uploadable sc input = false ->
    execute_of sc w context s = (Throw TypeError, with_input s context input).
Proof.
  intros sc w context s inputData input Hfile Hparse Hup.
  rewrite execute_outcome. unfold outcome. cbv zeta.
  now rewrite Hfile, Hparse, Hup.
Qed.

Lemma input_without_record_witness :
  let w := world_of hotelless_input reply_ok in
  files w (inputDataPath sample_context) = Some hotelless_input /\
  JSON_parse hotelless_input = Some hotelless_record /\
  uploadable first_client hotelless_record = false /\
  execute_of first_client w sample_context initial
  = (Throw TypeError, mkState [hotelless_record] [ERead "input.json"]).
Proof.
  cbv zeta.
  assert (Hparse : JSON_parse hotelless_input = Some hotelless_record)
    by (vm_compute; reflexivity).
  exact (conj eq_refl (conj Hparse (conj eq_refl
           (input_without_record_is_a_TypeError first_client
              (world_of hotelless_input reply_ok) sample_context initial
              hotelless_input hotelless_record eq_refl Hparse eq_refl)))).
Defined.

(** X5. A run of [execute] issues a request exactly when the input file is
    read, its text is JSON, it holds a record to upload and the document the
    script waits for is there (src/index.ts waits for none); the request is
    then the POST of the body built from that record and document, to the
    URL of the script. *)
Theorem request_issued_iff :
  forall (sc : script) (w : World) (context : Context) (s : state) (r : request),
    issues (execute_of sc w context) s r <->
    exists inputData input document,
      files w (inputDataPath context) = Some inputData /\
      JSON_parse inputData = Some input /\
      uploadable sc input = true /\
      awaited_document sc w context = Some document /\
      r = request_for sc context (record_of sc input) document.
Proof.
  intros sc w context s r. split.
  - intros H.
    destruct (issues_request_for _ _ _ _ _ H)
      as (inputData & input & document & Hfile & Hparse & Hup & Hdoc & Hr & _).
    now exists inputData, input, document.
  - intros (inputData & input & document & Hfile & Hparse & Hup & Hdoc & ->).
    now apply (request_for_issues sc w context s inputData document input).
Qed.

(** X6. Every request that a run of [execute] issues is a POST to the URL of
    the script with the two JSON headers, and its body is the JSON text of an
    object with one document: that document grants the one right Delete, to
    the client of the record, carries the application id of the parameters
    and the public access right None, is named by constants of the script
    whatever the document path is, and its [fileContent] is the base64 text
    of the document file (in src/index.ts: the promise). *)
Theorem issued_request_shape :
  forall (sc : script) (w : World) (context : Context) (s : state) (r : request),
    issues (execute_of sc w context) s r ->
    url r = target sc context /\ method r = "POST" /\ headers r = json_headers /\
    exists b d clientId,
      body r = JSON_stringify b /\ body r <> None /\
      get b "documents" = VArr [d] /\
      get d "clientAccessRights"
      = VArr [VObj [("clientId", clientId); ("right", VStr "Delete")]] /\
      get d "applicationId" = VStr (applicationId context) /\
      get d "publicAccessRight" = VStr "None" /\
      get d "fileName" = VStr (match sc with index_ts => "string" | _ => "invoice.pdf" end) /\
      get d "name" = VStr (match sc with index_ts => "string" | _ => "Invoice" end) /\
      match sc with
      | index_ts => get d "fileContent" = VPromise
      | _ => exists document,
               files w (documentPath context) = Some document /\
               get d "fileContent" = VStr (base64 document)
      end.
Proof.
  intros sc w context s r H.
  destruct (issues_request_for _ _ _ _ _ H)
    as (inputData & input & document & Hfile & Hparse & Hup & Hdoc & -> & _).
  repeat (split; [reflexivity|]).
  exists (body_for sc context (record_of sc input) document).
  destruct sc; simpl in Hdoc; do 2 eexists;
    (split; [reflexivity|]); (split; [discriminate|]);
    repeat (split; [reflexivity|]);
    first [reflexivity | exists document; split; [exact Hdoc | reflexivity]].
Qed.

Lemma issued_request_shape_witness :
  let w := world_of sample_client_input reply_ok in
  let r := request_for first_client sample_context
             (WithDocumentId.Reservation_json sample_reservation) sample_document in
  issues (execute_of first_client w sample_context) initial r /\
  url r = target first_client sample_context /\ method r = "POST" /\
  headers r = json_headers /\
  exists b d clientId,
    body r = JSON_stringify b /\ body r <> None /\
    get b "documents" = VArr [d] /\
    get d "clientAccessRights"
    = VArr [VObj [("clientId", clientId); ("right", VStr "Delete")]] /\
    get d "applicationId" = VStr (applicationId sample_context) /\
    get d "publicAccessRight" = VStr "None" /\
    get d "fileName" = VStr "invoice.pdf" /\
    get d "name" = VStr "Invoice" /\
    exists document,
      files w (documentPath sample_context) = Some document /\
      get d "fileContent" = VStr (base64 document).
Proof.
  cbv zeta.
  assert (H : issues (execute_of first_client (world_of sample_client_input reply_ok)
                        sample_context) initial
                (request_for first_client sample_context
                   (WithDocumentId.Reservation_json sample_reservation) sample_document))
    by (vm_compute; reflexivity).
  exact (conj H (issued_request_shape first_client _ sample_context initial _ H)).
Defined.

(** X7. In the two scripts that await the document, a document file that
    cannot be read ends [execute] in the error of that read, after the input
    is parsed and before any request. *)
Theorem missing_document_stops_before_fetch :
  forall (sc : script) (w : World) (context : Context) (s : state)
         (inputData : string) (input : value),
    sc <> index_ts ->
    files w (inputDataPath context) = Some inputData ->
    JSON_parse inputData = Some input ->
    uploadable sc input = true ->
    files w (documentPath context) = None ->
    execute_of sc w context s
    = (Throw (ReadError (documentPath context)),
       logged (with_input s context input) [EReadAsBase64 (documentPath context)]).
Proof.
  intros sc w context s inputData input Hsc Hfile Hparse Hup Hdoc.
  rewrite execute_outcome. unfold outcome. cbv zeta. rewrite Hfile, Hparse, Hup.
  destruct sc; [congruence| |]; simpl awaited_document; now rewrite Hdoc.
Qed.

Lemma missing_document_witness :
  let w := world_without_document sample_client_input reply_ok in
  first_client <> index_ts /\
  files w (inputDataPath sample_context) = Some sample_client_input /\
  JSON_parse sample_client_input = Some sample_clients /\
  uploadable first_client sample_clients = true /\
  files w (documentPath sample_context) = None /\
  execute_of first_client w sample_context initial
  = (Throw (ReadError "invoice.pdf"),
     mkState [sample_clients] [ERead "input.json"; EReadAsBase64 "invoice.pdf"]).
Proof.
  cbv zeta.
  assert (Hsc : first_client <> index_ts) by discriminate.
  assert (Hparse : JSON_parse sample_client_input = Some sample_clients)
    by (vm_compute; reflexivity).
  exact (conj Hsc (conj eq_refl (conj Hparse (conj eq_refl (conj eq_refl
           (missing_document_stops_before_fetch first_client
              (world_without_document sample_client_input reply_ok) sample_context
              initial sample_client_input sample_clients
              Hsc eq_refl Hparse eq_refl eq_refl)))))).
Defined.

(** X8. src/index.ts never waits for the document: what [execute] returns or
    throws, and what it logs, is the same in two worlds that agree on the
    input file and on the endpoint, whatever their document files hold. *)
Theorem index_ignores_the_document_file :
  forall (w w' : World) (context : Context) (s : state),
    files w (inputDataPath context) = files w' (inputDataPath context) ->
    (forall r, endpoint w r = endpoint w' r) ->
    Index.execute w context s = Index.execute w' context s.
Proof.
  intros w w' context s Hfile Hendpoint.
  rewrite !Index_execute_eq. unfold outcome. cbv zeta. rewrite Hfile.
  destruct (files w' (inputDataPath context)) as [inputData|]; [|reflexivity].
  destruct (JSON_parse inputData) as [input|]; [|reflexivity].
  destruct (uploadable index_ts input); [|reflexivity].
  unfold awaited_document. now rewrite Hendpoint.
Qed.

Lemma index_ignores_the_document_file_witness :
  let w := world_of sample_flat_input reply_ok in
  let w' := world_without_document sample_flat_input reply_ok in
  files w (inputDataPath sample_context) = files w' (inputDataPath sample_context) /\
  (forall r, endpoint w r = endpoint w' r) /\
  files w (documentPath sample_context) <> files w' (documentPath sample_context) /\
  Index.execute w sample_context initial = Index.execute w' sample_context initial.
Proof.
  cbv zeta.
  assert (Hdoc : files (world_of sample_flat_input reply_ok) (documentPath sample_context)
                 <> files (world_without_document sample_flat_input reply_ok)
                          (documentPath sample_context))
    by (simpl; discriminate).
  exact (conj eq_refl (conj (fun r => eq_refl) (conj Hdoc
           (index_ignores_the_document_file (world_of sample_flat_input reply_ok)
              (world_without_document sample_flat_input reply_ok) sample_context initial
              eq_refl (fun r => eq_refl))))).
Defined.

(** X9. A reply whose body is no JSON text ends [execute] of each script in
    the SyntaxError of [response.json()], whatever its status: so does an
    empty reply of status 204. *)
Theorem reply_that_is_no_JSON_is_a_SyntaxError :
  forall (sc : script) (w : World) (context : Context) (s : state)
         (req : request) (r : Response),
    issues (execute_of sc w context) s req ->
    endpoint w req = Some r ->
    JSON_parse (text r) = None ->
    fst (execute_of sc w context s) = Throw SyntaxError.
Proof.
  intros sc w context s req r H Hreply Hjson.
  destruct (issues_request_for _ _ _ _ _ H) as (_ & input & _ & _ & _ & _ & _ & _ & ->).
  rewrite Hreply. now apply conclude_not_JSON.
Qed.

Lemma reply_that_is_no_JSON_witness :
  let w := world_of sample_client_input reply_no_content in
  let req := request_for first_client sample_context
               (WithDocumentId.Reservation_json sample_reservation) sample_document in
  issues (execute_of first_client w sample_context) initial req /\
  endpoint w req = Some reply_no_content /\
  ok reply_no_content = true /\
  JSON_parse (text reply_no_content) = None /\
  fst (execute_of first_client w sample_context initial) = Throw SyntaxError.
Proof.
  cbv zeta.
  assert (H : issues (execute_of first_client (world_of sample_client_input reply_no_content)
                        sample_context) initial
                (request_for first_client sample_context
                   (WithDocumentId.Reservation_json sample_reservation) sample_document))
    by (vm_compute; reflexivity).
  exact (conj H (conj eq_refl (conj eq_refl (conj eq_refl
           (reply_that_is_no_JSON_is_a_SyntaxError first_client _ sample_context initial
              _ reply_no_content H eq_refl eq_refl))))).
Defined.

(** X10. When [fetch] rejects, no script catches it: [execute] ends in the
    error of [fetch], with the request as the last thing it did. *)
Theorem fetch_rejection_is_not_caught :
  forall (sc : script) (w : World) (context : Context) (s : state) (req : request),
    issues (execute_of sc w context) s req ->
    endpoint w req = None ->
    fst (execute_of sc w context s) = Throw NetworkError /\
    exists evs, log (snd (execute_of sc w context s)) = (log s ++ evs ++ [EFetch req])%list.
Proof.
  intros sc w context s req H Hreply.
  destruct (issues_request_for _ _ _ _ _ H) as (_ & input & _ & _ & _ & _ & _ & _ & ->).
  rewrite Hreply. split; [reflexivity|].
  unfold sent. simpl.
  destruct sc; eexists;
    match goal with
    | |- (_ ++ ?a :: ?b :: [?c; EFetch _] = _)%list => instantiate (1 := [a; b; c])
    | |- (_ ++ ?a :: ?b :: [EFetch _] = _)%list => instantiate (1 := [a; b])
    end; reflexivity.
Qed.

Lemma fetch_rejection_witness :
  let w := world_offline sample_client_input in
  let req := request_for first_client sample_context
               (WithDocumentId.Reservation_json sample_reservation) sample_document in
  issues (execute_of first_client w sample_context) initial req /\
  endpoint w req = None /\
  fst (execute_of first_client w sample_context initial) = Throw NetworkError /\
  exists evs,
    log (snd (execute_of first_client w sample_context initial))
    = (log initial ++ evs ++ [EFetch req])%list.
Proof.
  cbv zeta.
  assert (H : issues (execute_of first_client (world_offline sample_client_input)
                        sample_context) initial
                (request_for first_client sample_context
                   (WithDocumentId.Reservation_json sample_reservation) sample_document))
    by (vm_compute; reflexivity).
  exact (conj H (conj eq_refl
           (fetch_rejection_is_not_caught first_client _ sample_context initial _ H eq_refl))).
Defined.

(** ** The whole run *)

(** X11. [execute] returns only in the two scripts that return nothing, and
    only [undefined]; it does so exactly when the run issues its request and
    the endpoint answers it with an ok status and a body that is JSON. *)
Theorem execute_returns_iff :
  forall (sc : script) (w : World) (context : Context) (s : state) (v : value),
    fst (execute_of sc w context s) = Ok v <->
    sc <> with_document_id /\ v = VUndefined /\
    exists req r,
      issues (execute_of sc w context) s req /\
      endpoint w req = Some r /\ ok r = true /\ JSON_parse (text r) <> None.
Proof.
  intros sc w context s v. split.
  - rewrite execute_outcome. rows sc w context; simpl fst; try discriminate.
    intros H. destruct (conclude_Ok _ _ _ _ H) as (Hsc & -> & Hok & Hjson).
    split; [exact Hsc|]. split; [reflexivity|].
    exists (request_for sc context (record_of sc input) document), response.
    split; [now apply (request_for_issues sc w context s inputData)|].
    now repeat split.
  - intros (Hsc & -> & req & r & H & Hreply & Hok & Hjson).
    destruct (JSON_parse (text r)) as [json|] eqn:E; [|congruence].
    exact (execute_completes_without_id sc w context s req r json Hsc H Hreply Hok E).
Qed.

(** X12. What a run of [execute] adds to the log is, in this order: the read
    of the input file, the read of the document, one request; src/index.ts
    writes to the console before the request and after a response.  A run
    that ends early has logged a first part of that. *)
Theorem execute_trace :
  forall (sc : script) (w : World) (context : Context) (s : state),
    exists evs,
      log (snd (execute_of sc w context s)) = (log s ++ evs)%list /\
      trace_of sc context evs.
Proof.
  intros sc w context s. rewrite execute_outcome. rows sc w context; simpl snd.
  - rewrite conclude_log. unfold sent. simpl log. rewrite <- app_assoc.
    eexists. split; [reflexivity|].
    destruct sc; simpl; right; right; eexists; reflexivity.
  - unfold sent. simpl log. eexists. split; [reflexivity|].
    destruct sc; simpl; [right; left | right; right | right; right]; eexists; reflexivity.
  - unfold logged, with_input. simpl log. rewrite <- app_assoc.
    eexists. split; [reflexivity|].
    destruct sc; [discriminate Hdoc| |]; simpl; right; left; reflexivity.
  - unfold with_input. simpl log. eexists. split; [reflexivity|].
    destruct sc; simpl; left; reflexivity.
  - unfold logged. simpl log. eexists. split; [reflexivity|].
    destruct sc; simpl; left; reflexivity.
  - unfold logged. simpl log. eexists. split; [reflexivity|].
    destruct sc; simpl; left; reflexivity.
Qed.

(** X13. No script issues a second request: a run of [execute] issues either
    no request or exactly one, whatever the endpoint answers. *)
Theorem at_most_one_request :
  forall (sc : script) (w : World) (context : Context) (s : state),
    silent (execute_of sc w context) s \/
    exists r, issues (execute_of sc w context) s r.
Proof.
  intros sc w context s. unfold silent, issues.
  rewrite execute_outcome. rows sc w context; simpl snd.
  - right. eexists. now rewrite requests_conclude, requests_sent.
  - right. eexists. now rewrite requests_sent.
  - left. rewrite requests_logged by reflexivity.
    unfold with_input. simpl. rewrite requests_app. simpl. now rewrite app_nil_r.
  - left. unfold with_input. simpl. rewrite requests_app. simpl. now rewrite app_nil_r.
  - left. now rewrite requests_logged.
  - left. now rewrite requests_logged.
Qed.

(** X14. With the connector that the description of a script declares as
    the default of its parameter, the request goes to the upload path
    /api/query/MobileBackend/ContentUploadV4 itself.  (src/index.ts declares
    no default: it appends that path to its connector.) *)
Theorem default_connector_is_the_upload_path :
  forall (sc : script) (w : World) (context : Context) (s : state) (r : request),
    get (declared_input (getDescription_of sc) "dasConnector") "defaultValue"
    = VStr (dasConnector context) ->
    issues (execute_of sc w context) s r ->
    url r = upload_path.
Proof.
  intros sc w context s r Hdefault H.
  destruct (issues_request_for _ _ _ _ _ H) as (_ & input & document & _ & _ & _ & _ & -> & _).
  destruct sc; [discriminate Hdefault| |];
    change (VStr upload_path = VStr (dasConnector context)) in Hdefault;
    injection Hdefault as Hd; symmetry; exact Hd.
Qed.

Lemma default_connector_witness :
  let w := world_of sample_client_input reply_ok in
  let r := request_for first_client default_context
             (WithDocumentId.Reservation_json sample_reservation) sample_document in
  get (declared_input (getDescription_of first_client) "dasConnector") "defaultValue"
  = VStr (dasConnector default_context) /\
  issues (execute_of first_client w default_context) initial r /\
  url r = upload_path.
Proof.
  cbv zeta.
  assert (H : issues (execute_of first_client (world_of sample_client_input reply_ok)
                        default_context) initial
                (request_for first_client default_context
                   (WithDocumentId.Reservation_json sample_reservation) sample_document))
    by (vm_compute; reflexivity).
  exact (conj eq_refl (conj H
           (default_connector_is_the_upload_path first_client _ default_context initial _
              eq_refl H))).
Defined.
